(** * profilecreds: the assume-role credentials provider and its file cache

    A shallow embedding of package profilecreds: the provider
    ([AssumeRoleProfileProvider], [Retrieve] and its helpers) and the cache
    of [cache.go].  Go values are
    modelled as the code has them: pointers to strings as [option string],
    [map[string]string] as [gmap string string], [(T, error)] results as
    pairs with an optional error, the [Cache] interface as a type class.
    Everything outside the package (the clock, the file system, the ini
    reader, STS, the terminal, encoding/json) is an input of the model: the
    stateful collaborators are fields of [World], the pure ones fields of
    [EncodingJSON]. *)

From stdpp Require Import base strings gmap list pretty.
From Stdlib Require Import ZArith Lia Ascii.

Set Default Proof Using "Type".

(** ** Go values *)

(** The [error] interface; only nil-ness and identity of an error matter. *)
Inductive error : Type :=
| errors_New (msg : string).

#[global] Instance error_eq_dec : EqDecision error.
Proof. solve_decision. Defined.

(** [time.Time]: an instant (nanoseconds since the Unix epoch, unbounded)
    and a location.  The location does not take part in comparisons. *)
Inductive Location : Type :=
| UTC
| Local
| FixedZone (offset : Z).

Record time_Time : Type := mkTime {
  wall_ns : Z;
  loc : Location
}.

(** The zero [time.Time]: January 1, year 1, 00:00:00 UTC. *)
Definition time_zero : time_Time :=
  {| wall_ns := (-62135596800 * 1000000000)%Z; loc := UTC |}.

Definition time_UTC (t : time_Time) : time_Time :=
  {| wall_ns := wall_ns t; loc := UTC |}.

Definition time_Before (t u : time_Time) : bool :=
  (wall_ns t <? wall_ns u)%Z.

(** int64 wrap-around. *)
Definition wrap64 (z : Z) : Z :=
  ((z + 2 ^ 63) mod 2 ^ 64 - 2 ^ 63)%Z.

Definition time_UnixNano (t : time_Time) : Z := wrap64 (wall_ns t).

(** [time.Duration] is an int64 count of nanoseconds. *)
Definition time_Second : Z := 1000000000%Z.
Definition time_Minute : Z := (60 * time_Second)%Z.

(** [credentials.Value] of the AWS SDK. *)
Record credentials_Value : Type := mkValue {
  AccessKeyID : string;
  SecretAccessKey : string;
  SessionToken : string;
  ProviderName_ : string
}.

(** [const ProviderName] *)
Definition ProviderName : string := "AssumeRoleProfileProvider".

Record profile : Type := mkProfile {
  Name : string;
  RoleARN : string;
  SourceProfileName : string;
  RoleSessionName : option string;
  MFASerial : option string;
  ExternalID : option string
}.

Record creds : Type := mkCreds {
  creds_Credentials : credentials_Value;
  creds_Expiration : time_Time;
  creds_Profile : profile
}.

(** [var cached creds]: the zero value of the struct. *)
Definition creds_zero : creds :=
  {| creds_Credentials := mkValue "" "" "" "";
     creds_Expiration := time_zero;
     creds_Profile := mkProfile "" "" "" None None None |}.

(** [sts.AssumeRoleInput]: every member is a pointer. *)
Record AssumeRoleInput : Type := mkInput {
  DurationSeconds : option Z;
  RoleArn : option string;
  in_RoleSessionName : option string;
  ExternalId : option string;
  SerialNumber : option string;
  TokenCode : option string
}.

(** [sts.Credentials] and [sts.AssumeRoleOutput]: pointers again. *)
Record sts_Credentials : Type := mkStsCredentials {
  AccessKeyId : option string;
  sts_SecretAccessKey : option string;
  sts_SessionToken : option string;
  sts_Expiration : option time_Time
}.

Record AssumeRoleOutput : Type := mkOutput {
  out_Credentials : option sts_Credentials
}.

(** A loaded ini file: section name to key to value. *)
Definition IniSection : Type := gmap string string.
Definition IniFile : Type := gmap string (gmap string string).

#[global] Instance Location_eq_dec : EqDecision Location.
Proof. solve_decision. Defined.
#[global] Instance time_Time_eq_dec : EqDecision time_Time.
Proof. solve_decision. Defined.
#[global] Instance credentials_Value_eq_dec : EqDecision credentials_Value.
Proof. solve_decision. Defined.
#[global] Instance profile_eq_dec : EqDecision profile.
Proof. solve_decision. Defined.
#[global] Instance creds_eq_dec : EqDecision creds.
Proof. solve_decision. Defined.
#[global] Instance AssumeRoleInput_eq_dec : EqDecision AssumeRoleInput.
Proof. solve_decision. Defined.

(** ** The world outside the package *)

(** What the run asks of its collaborators, in order. *)
Inductive Event : Type :=
| EvGetToken
| EvAssumeRole (source_profile : string) (params : AssumeRoleInput).

#[global] Instance Event_eq_dec : EqDecision Event.
Proof. solve_decision. Defined.

Record FileNode : Type := mkFile {
  content : string;
  readable : bool;
  writable : bool
}.

Record World : Type := mkWorld {
  (** file system: the files that exist, and where a file may be created *)
  files : gmap string FileNode;
  creatable : string -> bool;
  (** wall clock: the n-th call of [time.Now()] reads [clock n] *)
  clock : nat -> Z;
  ticks : nat;
  (** [homedir.Dir()] *)
  homedir_Dir : string * option error;
  (** [ini.Load(path)] *)
  ini_Load : string -> option IniFile * option error;
  (** [os.TempDir()] and [path.Join(dir, name)] *)
  os_TempDir : string;
  path_Join : string -> string -> string;
  (** [client.AssumeRole(params)] signed with the shared credentials of the
      named source profile *)
  sts_AssumeRole : string -> AssumeRoleInput -> option AssumeRoleOutput * option error;
  (** [speakeasy.Ask(prompt)] *)
  speakeasy_Ask : string -> string * option error;
  (** [var DefaultDuration] *)
  DefaultDuration : Z;
  (** the requests made so far, latest last *)
  events : list Event
}.

Definition with_files (fs : gmap string FileNode) (w : World) : World :=
  mkWorld fs (creatable w) (clock w) (ticks w) (homedir_Dir w) (ini_Load w)
          (os_TempDir w) (path_Join w) (sts_AssumeRole w)
          (speakeasy_Ask w) (DefaultDuration w) (events w).

Definition with_ticks (n : nat) (w : World) : World :=
  mkWorld (files w) (creatable w) (clock w) n (homedir_Dir w) (ini_Load w)
          (os_TempDir w) (path_Join w) (sts_AssumeRole w)
          (speakeasy_Ask w) (DefaultDuration w) (events w).

Definition with_events (es : list Event) (w : World) : World :=
  mkWorld (files w) (creatable w) (clock w) (ticks w) (homedir_Dir w)
          (ini_Load w) (os_TempDir w) (path_Join w) (sts_AssumeRole w)
          (speakeasy_Ask w) (DefaultDuration w) es.

(** ** Go computations: state passing over the world, with panics *)

Inductive Outcome (A : Type) : Type :=
| Done (a : A) (w : World)
| Panicked (msg : string) (w : World).
Arguments Done {A} a w.
Arguments Panicked {A} msg w.

Definition Go (A : Type) : Type := World -> Outcome A.

Definition ret {A} (a : A) : Go A := fun w => Done a w.

Definition bind {A B} (m : Go A) (k : A -> Go B) : Go B :=
  fun w => match m w with
           | Done a w' => k a w'
           | Panicked msg w' => Panicked msg w'
           end.

Definition panic {A} (msg : string) : Go A := fun w => Panicked msg w.

Declare Scope go_scope.
Delimit Scope go_scope with go.
Notation "x <- m ;; k" := (bind m (fun x => k))
  (at level 100, m at next level, right associativity) : go_scope.

Definition nil_deref : string := "invalid memory address or nil pointer dereference".

(** [time.Now()]: a reading in the local zone. *)
Definition time_Now : Go time_Time :=
  fun w => Done {| wall_ns := clock w (ticks w); loc := Local |}
                (with_ticks (S (ticks w)) w).

(** [*p] for a pointer [p] *)
Definition deref {A} (p : option A) : Go A :=
  match p with
  | Some a => ret a
  | None => panic nil_deref
  end.

(** The world with one more request on record. *)
Definition log (e : Event) (w : World) : World :=
  with_events (events w ++ [e]) w.

(** [type TokenSource func() (string, error)]: what the function answers
    in the world it is called in. *)
Definition TokenSource : Type := World -> string * option error.

(** [get()] for a token source [get], put on record. *)
Definition call_TokenSource (get : TokenSource) : Go (string * option error) :=
  fun w => Done (get w) (log EvGetToken w).

(** [client.AssumeRole(params)], put on record; the client signs with the
    shared credentials of profile [source]. *)
Definition call_AssumeRole (source : string) (params : AssumeRoleInput)
  : Go (option AssumeRoleOutput * option error) :=
  fun w => Done (sts_AssumeRole w source params) (log (EvAssumeRole source params) w).

(** ** encoding/json

    The library is taken as given.  Its two entry points used here check
    that the text is well formed before they touch the destination
    ([Unmarshal] runs [checkValid] on the whole text, [Decoder.Decode] runs
    [readValue] on the stream), and only then fill the destination, which
    can still fail half way on a value of the wrong type. *)
Class EncodingJSON : Type := {
  (** [json.Valid]: the text is one well-formed JSON value *)
  json_Valid : string -> bool;
  (** [Decoder.readValue]: the first well-formed value of a stream *)
  json_readValue : string -> option string;
  (** filling a [creds] from a well-formed text *)
  json_fill_creds : string -> creds -> creds * option error;
  (** filling a [map[string]string] from a well-formed text; the text
      [null] leaves a nil map *)
  json_fill_map : string -> option (gmap string string)
                  -> option (gmap string string) * option error;
  (** [json.Marshal] of a [*creds] *)
  json_Marshal_creds : creds -> string * option error;
  (** what [Encoder.Encode] writes for a [map[string]string], nil or not *)
  json_Encode_map : option (gmap string string) -> string
}.

(** ** The types of the package *)

(** [type Cache interface]: the receiver is threaded, since the
    implementations have pointer receivers. *)
Class Cache (C : Type) : Type := {
  Cache_Set : string -> string -> C -> Go C;
  Cache_Get : string -> C -> Go (string * bool * C)
}.

(** [type FileCache struct]; [data = None] is the nil map.  The mutex only
    brackets the map accesses and is left out of this sequential model. *)
Record FileCache : Type := mkFileCache {
  data : option (gmap string string);
  filename : string
}.

(** [type AssumeRoleProfileProvider struct].  The embedded
    [credentials.Expiry] is kept as its expiration instant; nothing in the
    package sets it.  A nil interface or function value is [None]. *)
Record AssumeRoleProfileProvider (C : Type) : Type := mkProvider {
  Expiry : time_Time;
  Duration : Z;
  ProfileName : string;
  p_Cache : option C;
  GetToken : option TokenSource;
  ExpiryWindow : Z
}.
Arguments mkProvider {C}.
Arguments Expiry {C}.
Arguments Duration {C}.
Arguments ProfileName {C}.
Arguments p_Cache {C}.
Arguments GetToken {C}.
Arguments ExpiryWindow {C}.

Definition json_SyntaxError : error := errors_New "invalid character".

Section Package.
Context `{J : EncodingJSON}.

(** [json.Unmarshal([]byte(text), &c)] *)
Definition json_Unmarshal_creds (text : string) (c : creds) : creds * option error :=
  if json_Valid text then json_fill_creds text c
  else (c, Some json_SyntaxError).

(** [json.NewDecoder(file).Decode(&m)] *)
Definition json_Decode_map (stream : string) (m : option (gmap string string))
  : option (gmap string string) * option error :=
  match json_readValue stream with
  | Some v => json_fill_map v m
  | None => (m, Some json_SyntaxError)
  end.

(** ** cache.go *)

(** [NewFileCache]: the map stays nil until the first [Get] or [Set]. *)
Definition NewFileCache (filename : string) : Go FileCache :=
  fun w =>
    let filename :=
      if decide (filename = "") then path_Join w (os_TempDir w) "credentials"
      else filename in
    Done {| data := None; filename := filename |} w.

(** [os.Open(name)]: the content of the file, or an error. *)
Definition os_Open (name : string) (w : World) : option string :=
  match files w !! name with
  | Some n => if readable n then Some (content n) else None
  | None => None
  end.

(** [os.OpenFile(name, O_RDWR|O_CREATE|O_TRUNC, 0666)]: whether the file
    could be opened; it is then empty. *)
Definition os_OpenFile_trunc (name : string) (w : World) : option World :=
  match files w !! name with
  | Some n =>
      if readable n && writable n
      then Some (with_files (<[name := mkFile "" true true]> (files w)) w)
      else None
  | None =>
      if creatable w name
      then Some (with_files (<[name := mkFile "" true true]> (files w)) w)
      else None
  end.

(** Writing [text] to a file just opened that way. *)
Definition file_write (name text : string) : Go unit :=
  fun w => Done tt (with_files (<[name := mkFile text true true]> (files w)) w).

(** [readConf]: a fresh map, then whatever the decoder makes of the file.
    Neither the error of [os.Open] nor that of [Decode] goes anywhere. *)
Definition FileCache_readConf (f : FileCache) : Go FileCache :=
  fun w =>
    let f := {| data := Some ∅; filename := filename f |} in
    match os_Open (filename f) w with
    | None => Done f w
    | Some stream =>
        let '(m, _) := json_Decode_map stream (Some ∅) in
        Done {| data := m; filename := filename f |} w
    end.

(** [writeConf]: the whole map replaces the content of the file, if the
    file can be opened. *)
Definition FileCache_writeConf (f : FileCache) : Go unit :=
  fun w =>
    match os_OpenFile_trunc (filename f) w with
    | None => Done tt w
    | Some w' => file_write (filename f) (json_Encode_map (data f)) w'
    end.

Definition FileCache_Set (key value : string) (f : FileCache) : Go FileCache :=
  (f <- (if data f is None then FileCache_readConf f else ret f) ;;
   match data f with
   | None => panic "assignment to entry in nil map"
   | Some m =>
       let f := {| data := Some (<[key := value]> m); filename := filename f |} in
       _ <- FileCache_writeConf f ;;
       ret f
   end)%go.

Definition FileCache_Get (key : string) (f : FileCache) : Go (string * bool * FileCache) :=
  (f <- (if data f is None then FileCache_readConf f else ret f) ;;
   match data f ≫= (.!! key) with
   | Some value => ret (value, true, f)
   | None => ret ("", false, f)
   end)%go.

#[global] Instance FileCache_Cache : Cache FileCache := {
  Cache_Set := FileCache_Set;
  Cache_Get := FileCache_Get
}.

(** ** The provider *)

Section Provider.
Context {C : Type} `{HC : Cache C}.

(** Assignments to the fields of [*p]. *)
Definition with_Duration (d : Z) (p : AssumeRoleProfileProvider C) :=
  mkProvider (Expiry p) d (ProfileName p) (p_Cache p) (GetToken p) (ExpiryWindow p).

Definition with_Cache (c : option C) (p : AssumeRoleProfileProvider C) :=
  mkProvider (Expiry p) (Duration p) (ProfileName p) c (GetToken p) (ExpiryWindow p).

Definition with_GetToken (g : option TokenSource) (p : AssumeRoleProfileProvider C) :=
  mkProvider (Expiry p) (Duration p) (ProfileName p) (p_Cache p) g (ExpiryWindow p).

Definition with_ExpiryWindow (x : Z) (p : AssumeRoleProfileProvider C) :=
  mkProvider (Expiry p) (Duration p) (ProfileName p) (p_Cache p) (GetToken p) x.

(** [NewCredentials]: the provider that [credentials.NewCredentials] wraps. *)
Definition NewCredentials (profileName : string)
    (options : list (AssumeRoleProfileProvider C -> AssumeRoleProfileProvider C))
  : Go (AssumeRoleProfileProvider C) :=
  fun w =>
    let p := {| Expiry := time_zero;
                Duration := DefaultDuration w;
                ProfileName := profileName;
                p_Cache := None;
                GetToken := None;
                ExpiryWindow := 0%Z |} in
    Done (foldl (fun p option => option p) p options) w.

(** [var PromptTokenSource] *)
Definition PromptTokenSource : TokenSource :=
  fun w => speakeasy_Ask w "MFA Token: ".

(** The errors of [GetSection] and [GetKey]. *)
Definition ini_no_section (name : string) : error :=
  errors_New ("section '" +:+ name +:+ "' does not exist").
Definition ini_no_key (section key : string) : error :=
  errors_New ("error when getting key of section '" +:+ section +:+ "': key '"
              +:+ key +:+ "' not exists").

(** [loadProfile]: the two required keys, then the three optional ones,
    which stay nil when the section does not have them. *)
Definition loadProfile (p : AssumeRoleProfileProvider C)
  : Go (option profile * option error) :=
  fun w =>
    let '(home, err) := homedir_Dir w in
    if err is Some e then Done (None, Some e) w else
    let '(config, err) := ini_Load w (home +:+ "/.aws/config") in
    if err is Some e then Done (None, Some e) w else
    match config with
    | None => Panicked nil_deref w
    | Some config =>
        let name := "profile " +:+ ProfileName p in
        match config !! name with
        | None => Done (None, Some (ini_no_section name)) w
        | Some section =>
            match section !! "role_arn" with
            | None => Done (None, Some (ini_no_key name "role_arn")) w
            | Some role_arn =>
                match section !! "source_profile" with
                | None => Done (None, Some (ini_no_key name "source_profile")) w
                | Some source_profile =>
                    Done (Some {| Name := ProfileName p;
                                  RoleARN := role_arn;
                                  SourceProfileName := source_profile;
                                  RoleSessionName := section !! "role_session_name";
                                  MFASerial := section !! "mfa_serial";
                                  ExternalID := section !! "external_id" |},
                          None) w
                end
            end
        end
    end.

(** [p.Cache.Get(key)] and [p.Cache.Set(key, value)] on the interface value
    held by the provider: a nil interface panics. *)
Definition provider_Cache_Get (key : string) (p : AssumeRoleProfileProvider C)
  : Go (string * bool * AssumeRoleProfileProvider C) :=
  match p_Cache p with
  | None => panic nil_deref
  | Some c =>
      (r <- Cache_Get key c ;;
       let '(value, found, c) := r in
       ret (value, found, with_Cache (Some c) p))%go
  end.

Definition provider_Cache_Set (key value : string) (p : AssumeRoleProfileProvider C)
  : Go (AssumeRoleProfileProvider C) :=
  match p_Cache p with
  | None => panic nil_deref
  | Some c =>
      (c <- Cache_Set key value c ;;
       ret (with_Cache (Some c) p))%go
  end.

Definition loadCachedCreds (p : AssumeRoleProfileProvider C)
  : Go (creds * AssumeRoleProfileProvider C) :=
  (r <- provider_Cache_Get "credentials" p ;;
   let '(cachedJSON, ok, p) := r in
   if ok then ret (fst (json_Unmarshal_creds cachedJSON creds_zero), p)
   else ret (creds_zero, p))%go.

(** [reflect.DeepEqual] on two [*string]: both nil, or both set to equal
    strings. *)
Definition DeepEqual_ptr (a b : option string) : bool :=
  match a, b with
  | None, None => true
  | Some x, Some y => String.eqb x y
  | _, _ => false
  end.

(** [reflect.DeepEqual] on two [profile] structs: field by field. *)
Definition DeepEqual_profile (a b : profile) : bool :=
  String.eqb (Name a) (Name b)
  && String.eqb (RoleARN a) (RoleARN b)
  && String.eqb (SourceProfileName a) (SourceProfileName b)
  && DeepEqual_ptr (RoleSessionName a) (RoleSessionName b)
  && DeepEqual_ptr (MFASerial a) (MFASerial b)
  && DeepEqual_ptr (ExternalID a) (ExternalID b).

Definition Match (c : creds) (p : profile) : bool :=
  DeepEqual_profile (creds_Profile c) p.

Definition IsExpired (c : creds) : Go bool :=
  (now <- time_Now ;;
   ret (time_Before (time_UTC (creds_Expiration c)) (time_UTC now)))%go.

(** [fmt.Sprintf("%d", n)] *)
Definition Sprintf_d (n : Z) : string := pretty n.

(** [credentials.Value{ProviderName: ProviderName}] *)
Definition Value_tag_only : credentials_Value := mkValue "" "" "" ProviderName.

(** [retrieve]: the live refresh.  [prof] is the callee's copy of the
    profile; the provider is returned because [p.Duration] may be set. *)
Definition retrieve (p : AssumeRoleProfileProvider C) (prof : profile)
  : Go (credentials_Value * time_Time * option error * AssumeRoleProfileProvider C) :=
  let sourceCreds := SourceProfileName prof in
  (sessionName <- match RoleSessionName prof with
                  | None =>
                      now <- time_Now ;;
                      ret (Some (Sprintf_d (time_UnixNano (time_UTC now))))
                  | Some s => ret (Some s)
                  end ;;
   d <- (if decide (Duration p = 0%Z)
         then fun w => Done (DefaultDuration w) w
         else ret (Duration p)) ;;
   let p := with_Duration d p in
   let params :=
     {| DurationSeconds := Some (wrap64 (Duration p ÷ time_Second));
        RoleArn := Some (RoleARN prof);
        in_RoleSessionName := sessionName;
        ExternalId := ExternalID prof;
        SerialNumber := None;
        TokenCode := None |} in
   let exchange (params : AssumeRoleInput) :=
     (r <- call_AssumeRole sourceCreds params ;;
      let '(roleOutput, err) := r in
      match err with
      | Some e =>
          now <- time_Now ;;
          ret (Value_tag_only, now, Some e, p)
      | None =>
          out <- deref roleOutput ;;
          c <- deref (out_Credentials out) ;;
          ak <- deref (AccessKeyId c) ;;
          sk <- deref (sts_SecretAccessKey c) ;;
          st <- deref (sts_SessionToken c) ;;
          exp <- deref (sts_Expiration c) ;;
          ret (mkValue ak sk st ProviderName, time_UTC exp, None, p)
      end) in
   match MFASerial prof with
   | Some serial =>
       get <- deref (GetToken p) ;;
       r <- call_TokenSource get ;;
       let '(token, err) := r in
       match err with
       | Some e =>
           now <- time_Now ;;
           ret (Value_tag_only, now, Some e, p)
       | None =>
           exchange
             {| DurationSeconds := DurationSeconds params;
                RoleArn := RoleArn params;
                in_RoleSessionName := in_RoleSessionName params;
                ExternalId := ExternalId params;
                SerialNumber := Some serial;
                TokenCode := Some token |}
       end
   | None => exchange params
   end)%go.

(** [Retrieve].  The third result of [retrieve] is bound to [err] and not
    read again; the function ends in [return cachedCreds.Credentials, nil]. *)
Definition Retrieve (p : AssumeRoleProfileProvider C)
  : Go (credentials_Value * option error * AssumeRoleProfileProvider C) :=
  (r <- loadProfile p ;;
   let '(prof, err) := r in
   match err with
   | Some e => ret (Value_tag_only, Some e, p)
   | None =>
       r <- loadCachedCreds p ;;
       let '(cachedCreds, p) := r in
       prof <- deref prof ;;
       hit <- (if Match cachedCreds prof
               then expired <- IsExpired cachedCreds ;; ret (negb expired)
               else ret false) ;;
       if (hit : bool) then ret (creds_Credentials cachedCreds, None, p)
       else
         let p := if GetToken p is None
                  then with_GetToken (Some PromptTokenSource) p else p in
         r <- retrieve p prof ;;
         let '(credentials, expiration, err, p) := r in
         let cachedCreds :=
           {| creds_Profile := prof;
              creds_Credentials := credentials;
              creds_Expiration := expiration |} in
         let '(cachedJSON, err) := json_Marshal_creds cachedCreds in
         p <- (if err is None
               then provider_Cache_Set "credentials" cachedJSON p
               else ret p) ;;
         ret (creds_Credentials cachedCreds, None, p)
   end)%go.

End Provider.
End Package.

(** * Vocabulary for the properties *)

Section Paths.
Context `{J : EncodingJSON} {C : Type} `{HC : Cache C}.
Implicit Types (p : AssumeRoleProfileProvider C) (prof : profile) (w : World).

(** The world an outcome leaves behind. *)
Definition world_of {A} (o : Outcome A) : World :=
  match o with
  | Done _ w => w
  | Panicked _ w => w
  end.

(** The requests an outcome adds to those of the world it started in. *)
Definition asked {A} (w : World) (o : Outcome A) : list Event :=
  drop (length (events w)) (events (world_of o)).

(** What [Retrieve] hands back to its caller, when it returns. *)
Definition returned (o : Outcome (credentials_Value * option error * AssumeRoleProfileProvider C))
  : option (credentials_Value * option error) :=
  match o with
  | Done (v, e, _) _ => Some (v, e)
  | Panicked _ _ => None
  end.

(** The clock reading the next [time.Now()] returns, and the world after it. *)
Definition now_of w : Z := clock w (ticks w).
Definition tick w : World := with_ticks (S (ticks w)) w.

(** Whether [Retrieve] takes the cached record (line 103), and the world
    after the test: [IsExpired] reads the clock only when the profiles
    match. *)
Definition usable (cached : creds) prof w : bool :=
  Match cached prof && negb (wall_ns (creds_Expiration cached) <? now_of w)%Z.

Definition after_test (cached : creds) prof w : World :=
  if Match cached prof then tick w else w.

(** Lines 106 to 121 of [Retrieve] as a computation of their own: what a
    call does once it has decided against the cached record. *)
Definition with_default_GetToken p : AssumeRoleProfileProvider C :=
  if GetToken p is None then with_GetToken (Some PromptTokenSource) p else p.

Definition live_refresh p prof
  : Go (credentials_Value * option error * AssumeRoleProfileProvider C) :=
  (let p := with_default_GetToken p in
   r <- retrieve p prof ;;
   let '(credentials, expiration, err, p) := r in
   let cachedCreds :=
     {| creds_Profile := prof;
        creds_Credentials := credentials;
        creds_Expiration := expiration |} in
   let '(cachedJSON, err) := json_Marshal_creds cachedCreds in
   p <- (if err is None
         then provider_Cache_Set "credentials" cachedJSON p
         else ret p) ;;
   ret (creds_Credentials cachedCreds, None, p))%go.

(** Lines 117 to 121 alone: storing a record and returning its credentials. *)
Definition store_and_return (cachedCreds : creds) p
  : Go (credentials_Value * option error * AssumeRoleProfileProvider C) :=
  (let '(cachedJSON, err) := json_Marshal_creds cachedCreds in
   p <- (if err is None
         then provider_Cache_Set "credentials" cachedJSON p
         else ret p) ;;
   ret (creds_Credentials cachedCreds, None, p))%go.

(** The defaults of lines 185 to 192. *)
Definition session_world prof w : World :=
  if RoleSessionName prof is None then tick w else w.

Definition session_name prof w : option string :=
  match RoleSessionName prof with
  | None => Some (Sprintf_d (time_UnixNano (mkTime (now_of w) UTC)))
  | Some s => Some s
  end.

Definition effective_Duration p w : Z :=
  if decide (Duration p = 0%Z) then DefaultDuration w else Duration p.

(** The request of lines 197 to 202, and the one completed at 204 and 210. *)
Definition base_request p prof w : AssumeRoleInput :=
  {| DurationSeconds := Some (wrap64 (effective_Duration p w ÷ time_Second));
     RoleArn := Some (RoleARN prof);
     in_RoleSessionName := session_name prof w;
     ExternalId := ExternalID prof;
     SerialNumber := None;
     TokenCode := None |}.

Definition mfa_request p prof w (serial token : string) : AssumeRoleInput :=
  {| DurationSeconds := Some (wrap64 (effective_Duration p w ÷ time_Second));
     RoleArn := Some (RoleARN prof);
     in_RoleSessionName := session_name prof w;
     ExternalId := ExternalID prof;
     SerialNumber := Some serial;
     TokenCode := Some token |}.

(** Lines 213 to 223 as a computation of their own. *)
Definition exchange p (source : string) (params : AssumeRoleInput)
  : Go (credentials_Value * time_Time * option error * AssumeRoleProfileProvider C) :=
  (r <- call_AssumeRole source params ;;
   let '(roleOutput, err) := r in
   match err with
   | Some e =>
       now <- time_Now ;;
       ret (Value_tag_only, now, Some e, p)
   | None =>
       out <- deref roleOutput ;;
       c <- deref (out_Credentials out) ;;
       ak <- deref (AccessKeyId c) ;;
       sk <- deref (sts_SecretAccessKey c) ;;
       st <- deref (sts_SessionToken c) ;;
       exp <- deref (sts_Expiration c) ;;
       ret (mkValue ak sk st ProviderName, time_UTC exp, None, p)
   end)%go.

(** An answer of STS with every member present. *)
Definition sts_success (ak sk st : string) (exp : time_Time) : AssumeRoleOutput :=
  mkOutput (Some (mkStsCredentials (Some ak) (Some sk) (Some st) (Some exp))).



(** An outcome that ends with a provider, with [f] applied to that provider. *)
Definition on_provider (f : AssumeRoleProfileProvider C -> AssumeRoleProfileProvider C)
    {A} (o : Outcome (A * AssumeRoleProfileProvider C))
  : Outcome (A * AssumeRoleProfileProvider C) :=
  match o with
  | Done (a, p) w => Done (a, f p) w
  | Panicked msg w => Panicked msg w
  end.


(** The file cache once [readConf] has found nothing. *)
Definition emptied (f : FileCache) : FileCache := mkFileCache (Some ∅) (filename f).

(** Two worlds with the same collaborators: they may differ in their files,
    in the number of clock readings taken and in the requests on record. *)
Definition same_collaborators w w' : Prop :=
  creatable w' = creatable w /\ clock w' = clock w
  /\ homedir_Dir w' = homedir_Dir w /\ ini_Load w' = ini_Load w
  /\ os_TempDir w' = os_TempDir w /\ path_Join w' = path_Join w
  /\ sts_AssumeRole w' = sts_AssumeRole w /\ speakeasy_Ask w' = speakeasy_Ask w
  /\ DefaultDuration w' = DefaultDuration w.

(** What [Get] hands back to its caller, when it returns. *)
Definition answer (o : Outcome (string * bool * FileCache)) : option (string * bool) :=
  match o with
  | Done (value, found, _) _ => Some (value, found)
  | Panicked _ _ => None
  end.

(** An answer of [client.AssumeRole] that is an error, or else has every
    member the code dereferences. *)
Definition sts_well_formed (r : option AssumeRoleOutput * option error) : Prop :=
  (exists e, r.2 = Some e)
  \/ (exists ak sk st exp, r = (Some (sts_success ak sk st exp), None)).

End Paths.

(** * A concrete setting

    One machine, used for the closed statements below: a home directory
    with an AWS config of two profiles, a clock that advances one second
    per reading from 2027-01-15T08:00:00Z, and an instance of encoding/json
    that prints the two document types of the package as Go does and reads
    back the documents listed in [known_records] and [known_maps]. *)
Module Example.

(** The double quote. *)
Definition dq : string := String "034"%char "".

(** JSON string literals: quotes and backslashes are escaped. *)
Fixpoint escape (s : string) : string :=
  match s with
  | EmptyString => EmptyString
  | String a s' =>
      if Ascii.eqb a "034"%char || Ascii.eqb a "092"%char
      then String "092"%char (String a (escape s'))
      else String a (escape s')
  end.

Definition quoted (s : string) : string := dq +:+ escape s +:+ dq.

Definition quoted_ptr (o : option string) : string :=
  match o with
  | Some s => quoted s
  | None => "null"
  end.

Definition member (name value : string) : string := quoted name +:+ ":" +:+ value.

(** Year, month and day of a day count from 1970-01-01. *)
Definition civil (days : Z) : Z * Z * Z :=
  let z := (days + 719468)%Z in
  let era := (z / 146097)%Z in
  let doe := (z mod 146097)%Z in
  let yoe := ((doe - doe / 1460 + doe / 36524 - doe / 146096) / 365)%Z in
  let doy := (doe - (365 * yoe + yoe / 4 - yoe / 100))%Z in
  let mp := ((5 * doy + 2) / 153)%Z in
  let d := (doy - (153 * mp + 2) / 5 + 1)%Z in
  let m := (if mp <? 10 then mp + 3 else mp - 9)%Z in
  let y := (yoe + era * 400 + (if m <=? 2 then 1 else 0))%Z in
  (y, m, d).

Definition pad (width : nat) (n : Z) : string :=
  let s := pretty n in
  String.concat "" (replicate (width - String.length s) "0") +:+ s.

(** The fraction of a second, without trailing zeros. *)
Fixpoint fraction (k : nat) (f : Z) : string :=
  match k with
  | O => ""
  | S k' => if (f mod 10 =? 0)%Z then fraction k' (f / 10)%Z else "." +:+ pad k f
  end.

(** [Time.MarshalJSON]: RFC 3339 with nanoseconds; the local zone of this
    machine is UTC. *)
Definition time_MarshalJSON (t : time_Time) : option string :=
  let off := match loc t with FixedZone o => o | _ => 0%Z end in
  let ns := (wall_ns t + off * 1000000000)%Z in
  let secs := (ns / 1000000000)%Z in
  let sod := (secs mod 86400)%Z in
  let '(y, m, d) := civil (secs / 86400)%Z in
  if ((y <? 0) || (9999 <? y))%Z then None
  else
    let zone :=
      if (off =? 0)%Z then "Z"
      else (if (off <? 0)%Z then "-" else "+")
           +:+ pad 2 (Z.abs off / 3600) +:+ ":" +:+ pad 2 (Z.abs off / 60 mod 60) in
    Some (pad 4 y +:+ "-" +:+ pad 2 m +:+ "-" +:+ pad 2 d +:+ "T"
          +:+ pad 2 (sod / 3600) +:+ ":" +:+ pad 2 (sod / 60 mod 60) +:+ ":"
          +:+ pad 2 (sod mod 60) +:+ fraction 9 (ns mod 1000000000)%Z +:+ zone).

Definition print_Value (v : credentials_Value) : string :=
  "{" +:+ member "AccessKeyID" (quoted (AccessKeyID v))
  +:+ "," +:+ member "SecretAccessKey" (quoted (SecretAccessKey v))
  +:+ "," +:+ member "SessionToken" (quoted (SessionToken v))
  +:+ "," +:+ member "ProviderName" (quoted (ProviderName_ v)) +:+ "}".

Definition print_profile (p : profile) : string :=
  "{" +:+ member "Name" (quoted (Name p))
  +:+ "," +:+ member "RoleARN" (quoted (RoleARN p))
  +:+ "," +:+ member "SourceProfileName" (quoted (SourceProfileName p))
  +:+ "," +:+ member "RoleSessionName" (quoted_ptr (RoleSessionName p))
  +:+ "," +:+ member "MFASerial" (quoted_ptr (MFASerial p))
  +:+ "," +:+ member "ExternalID" (quoted_ptr (ExternalID p)) +:+ "}".

Definition Marshal_creds (c : creds) : string * option error :=
  match time_MarshalJSON (creds_Expiration c) with
  | Some stamp =>
      ("{" +:+ member "Credentials" (print_Value (creds_Credentials c))
       +:+ "," +:+ member "Expiration" (quoted stamp)
       +:+ "," +:+ member "Profile" (print_profile (creds_Profile c)) +:+ "}",
       None)
  | None =>
      ("", Some (errors_New "Time.MarshalJSON: year outside of range [0,9999]"))
  end.

Definition newline : string := String "010"%char "".

(** Members in the order of [map_to_list]; Go sorts the keys, which makes
    no difference for the maps of one key used here. *)
Definition Encode_map (m : option (gmap string string)) : string :=
  match m with
  | None => "null" +:+ newline
  | Some m =>
      "{" +:+ String.concat "," ((fun kv => member kv.1 (quoted kv.2)) <$> map_to_list m)
      +:+ "}" +:+ newline
  end.

(** The profiles of the config file. *)
Definition role_X : string := "arn:aws:iam::111111111111:role/X".
Definition mfa_Y : string := "arn:aws:iam::222222222222:mfa/Y".

Definition prof_prod : profile := mkProfile "prod" role_X "dev" None None None.
Definition prof_mfa : profile := mkProfile "secure" role_X "dev" None (Some mfa_Y) None.

Definition config : IniFile :=
  {[ "profile prod" := {[ "role_arn" := role_X; "source_profile" := "dev" ]};
     "profile secure" := {[ "role_arn" := role_X; "source_profile" := "dev";
                            "mfa_serial" := mfa_Y ]} ]}.

(** The config file after profile prod was given an external id. *)
Definition prof_prod_external : profile :=
  mkProfile "prod" role_X "dev" None None (Some "123").

Definition config_external : IniFile :=
  {[ "profile prod" := {[ "role_arn" := role_X; "source_profile" := "dev";
                          "external_id" := "123" ]} ]}.

(** The clock starts at 2027-01-15T08:00:00Z. *)
Definition t0 : Z := 1800000000000000000%Z.
Definition seconds (n : Z) : Z := (n * time_Second)%Z.

Definition key_1 : credentials_Value :=
  mkValue "ASIAEXAMPLE1" "secret1" "token1" ProviderName.
Definition key_2 : credentials_Value :=
  mkValue "ASIAEXAMPLE2" "secret2" "token2" ProviderName.

(** Cached records: good for another hour, good for five more seconds,
    expired a minute ago, at its last instant, for another profile. *)
Definition rec_hour : creds := mkCreds key_1 (mkTime (t0 + seconds 3600) UTC) prof_prod.
Definition rec_5s : creds := mkCreds key_1 (mkTime (t0 + seconds 5) UTC) prof_prod.
Definition rec_expired : creds := mkCreds key_1 (mkTime (t0 - seconds 60) UTC) prof_prod.
Definition rec_last_instant : creds := mkCreds key_1 (mkTime t0 UTC) prof_prod.
Definition rec_mfa_hour : creds := mkCreds key_1 (mkTime (t0 + seconds 3600) UTC) prof_mfa.
Definition rec_mfa_expired : creds := mkCreds key_1 (mkTime (t0 - seconds 60) UTC) prof_mfa.

Definition known_records : list creds :=
  [rec_hour; rec_5s; rec_expired; rec_last_instant; rec_mfa_hour; rec_mfa_expired].

Definition cache_of (c : creds) : gmap string string :=
  {[ "credentials" := (Marshal_creds c).1 ]}.

Definition known_maps : list (gmap string string) := cache_of <$> known_records.

(** The instance reads back what it knows, and takes any other text for
    malformed. *)
Definition type_mismatch : error :=
  errors_New "json: cannot unmarshal value into Go value".

#[local] Instance json : EncodingJSON := {
  json_Valid text :=
    bool_decide (text ∈ (fun c => (Marshal_creds c).1) <$> known_records);
  json_readValue stream :=
    if bool_decide (stream ∈ Encode_map <$> (None :: (Some <$> known_maps)))
    then Some stream else None;
  json_fill_creds text c :=
    match find (fun r => bool_decide ((Marshal_creds r).1 = text)) known_records with
    | Some r => (r, None)
    | None => (c, Some type_mismatch)
    end;
  json_fill_map text m :=
    if bool_decide (text = "null" +:+ newline) then (None, None)
    else
      match find (fun k => bool_decide (Encode_map (Some k) = text)) known_maps with
      | Some k => (Some (k ∪ default ∅ m), None)
      | None => (m, Some type_mismatch)
      end;
  json_Marshal_creds := Marshal_creds;
  json_Encode_map := Encode_map
}.

Definition cache_path : string := "/tmp/credentials".

(** The machine: [config] is the parsed config file, [cache_file] is what
    the cache file holds, if it exists; [sts] and [terminal] are the answers
    of STS and of the prompt. *)
Definition machine_on (config : IniFile) (cache_file : option string)
    (sts : option AssumeRoleOutput * option error)
    (terminal : string * option error) : World :=
  {| files := match cache_file with
              | Some text => {[ cache_path := mkFile text true true ]}
              | None => ∅
              end;
     creatable := fun _ => true;
     clock := fun n => (t0 + seconds (Z.of_nat n))%Z;
     ticks := 0;
     homedir_Dir := ("/home/alice", None);
     ini_Load := fun path =>
       if decide (path = "/home/alice/.aws/config") then (Some config, None)
       else (None, Some (errors_New "open: no such file or directory"));
     os_TempDir := "/tmp";
     path_Join := fun dir name => dir +:+ "/" +:+ name;
     sts_AssumeRole := fun _ _ => sts;
     speakeasy_Ask := fun _ => terminal;
     DefaultDuration := (15 * time_Minute)%Z;
     events := [] |}.

Definition machine := machine_on config.

Definition sts_ok : option AssumeRoleOutput * option error :=
  (Some (sts_success "ASIAEXAMPLE2" "secret2" "token2"
           (mkTime (t0 + seconds 900) (FixedZone 3600))), None).
Definition sts_denied : option AssumeRoleOutput * option error :=
  (None, Some (errors_New "AccessDenied: not authorized to perform sts:AssumeRole")).
Definition token_ok : string * option error := ("123456", None).
Definition token_closed : string * option error := ("", Some (errors_New "EOF")).

(** A provider as an embedder sets it up: [NewCredentials(name, options...)]
    with a file cache, and optionally an early-refresh window. *)
Definition provider (name : string) (window : Z) : AssumeRoleProfileProvider FileCache :=
  {| Expiry := time_zero;
     Duration := (15 * time_Minute)%Z;
     ProfileName := name;
     p_Cache := Some (mkFileCache None cache_path);
     GetToken := None;
     ExpiryWindow := window |}.

(** The cache file that holds record [c]. *)
Definition file_of (c : creds) : string := Encode_map (Some (cache_of c)).

(** What the cache file holds afterwards. *)
Definition cache_file_after {A} (o : Outcome A) : option string :=
  content <$> files (world_of o) !! cache_path.

End Example.

(** More answers of STS for the machine: one that grants what record
    [rec_hour] holds, and one that reports no error and has no credentials. *)
Module MoreExamples.

Definition sts_hour : option AssumeRoleOutput * option error :=
  (Some (sts_success "ASIAEXAMPLE1" "secret1" "token1"
           (mkTime (Example.t0 + Example.seconds 3600) UTC)), None).

Definition sts_incomplete : option AssumeRoleOutput * option error :=
  (Some (mkOutput None), None).

(** A file cache on the cache file of the machine, its map not loaded yet. *)
Definition fresh_cache : FileCache := mkFileCache None Example.cache_path.

End MoreExamples.

(** The decoder on a stream.  [Decoder.Decode] reads the first JSON value
    of its stream and leaves what follows unread.  This instance does so
    for the documents the machine knows, whatever text comes after them,
    and takes a stream that starts with none of them for malformed;
    [json.Valid] accepts the known documents and records, and no text that
    goes on after one.  In every other respect it is the instance of the
    machine. *)
Module Streams.

Definition documents : list string :=
  Example.Encode_map <$> (None :: (Some <$> Example.known_maps)).

Definition first_document (stream : string) : option string :=
  find (fun d => String.prefix d stream) documents.

Definition json : EncodingJSON := {|
  json_Valid text :=
    bool_decide (text ∈ ((fun c => (Example.Marshal_creds c).1) <$> Example.known_records)
                        ++ documents);
  json_readValue := first_document;
  json_fill_creds := @json_fill_creds Example.json;
  json_fill_map := @json_fill_map Example.json;
  json_Marshal_creds := Example.Marshal_creds;
  json_Encode_map := Example.Encode_map
|}.


End Streams.

(** * Properties *)

Section Facts.
Context `{J : EncodingJSON} {C : Type} `{HC : Cache C}.
Implicit Types (p : AssumeRoleProfileProvider C) (prof : profile) (w : World).

Lemma time_Now_eq w : time_Now w = Done (mkTime (now_of w) Local) (tick w).
Proof. reflexivity. Qed.

Lemma IsExpired_eq (c : creds) w :
  IsExpired c w = Done (wall_ns (creds_Expiration c) <? now_of w)%Z (tick w).
Proof. reflexivity. Qed.

(** ** Deep equality is equality *)

Lemma DeepEqual_ptr_spec (a b : option string) :
  DeepEqual_ptr a b = true <-> a = b.
Proof.
  destruct a as [x|], b as [y|]; simpl; try (split; congruence).
  rewrite String.eqb_eq. split; congruence.
Qed.

Lemma DeepEqual_profile_spec (a b : profile) :
  DeepEqual_profile a b = true <-> a = b.
Proof.
  unfold DeepEqual_profile. rewrite !andb_true_iff, !String.eqb_eq, !DeepEqual_ptr_spec.
  destruct a, b; simpl. split.
  - intros [[[[[-> ->] ->] ->] ->] ->]. reflexivity.
  - intros [= -> -> -> -> -> ->]. repeat split.
Qed.

Lemma Match_spec (c : creds) prof : Match c prof = true <-> creds_Profile c = prof.
Proof. apply DeepEqual_profile_spec. Qed.

Lemma Match_false (c : creds) prof : Match c prof = false <-> creds_Profile c ≠ prof.
Proof.
  rewrite <- Match_spec. destruct (Match c prof); split; congruence.
Qed.

(** ** [loadProfile] only reads *)

Lemma loadProfile_world p w r w' : loadProfile p w = Done r w' -> w' = w.
Proof.
  unfold loadProfile. intros Hl.
  repeat (match type of Hl with
          | context [match ?x with _ => _ end] => destruct x
          end; try congruence).
Qed.

Lemma loadProfile_nil_error p w o w' :
  loadProfile p w = Done (o, None) w' -> exists prof, o = Some prof /\ Name prof = ProfileName p.
Proof.
  unfold loadProfile. intros Hl.
  repeat (match type of Hl with
          | context [match ?x with _ => _ end] => destruct x
          end; try congruence).
  injection Hl as <- _. eexists. split; reflexivity.
Qed.

(** ** The paths of [Retrieve] *)

Lemma Retrieve_load_error p w o e :
  loadProfile p w = Done (o, Some e) w ->
  Retrieve p w = Done (Value_tag_only, Some e, p) w.
Proof. intros Hl. unfold Retrieve, bind. rewrite Hl. reflexivity. Qed.

Lemma Retrieve_nil_cache p w prof :
  loadProfile p w = Done (Some prof, None) w ->
  p_Cache p = None ->
  Retrieve p w = Panicked nil_deref w.
Proof.
  intros Hl Hc. unfold Retrieve, bind. rewrite Hl.
  unfold loadCachedCreds, provider_Cache_Get, bind. rewrite Hc. reflexivity.
Qed.

Lemma Retrieve_hit p w prof cached p1 w1 :
  loadProfile p w = Done (Some prof, None) w ->
  loadCachedCreds p w = Done (cached, p1) w1 ->
  Match cached prof = true ->
  (now_of w1 <= wall_ns (creds_Expiration cached))%Z ->
  Retrieve p w = Done (creds_Credentials cached, None, p1) (tick w1).
Proof.
  intros Hl Hc Hm He. unfold Retrieve, bind. rewrite Hl, Hc. simpl.
  rewrite Hm. unfold ret, time_Before. simpl.
  apply Z.ltb_ge in He. unfold now_of in He. rewrite He. reflexivity.
Qed.

Lemma Retrieve_miss_profile p w prof cached p1 w1 :
  loadProfile p w = Done (Some prof, None) w ->
  loadCachedCreds p w = Done (cached, p1) w1 ->
  Match cached prof = false ->
  Retrieve p w = live_refresh p1 prof w1.
Proof.
  intros Hl Hc Hm. unfold Retrieve, bind. rewrite Hl, Hc. simpl.
  rewrite Hm. reflexivity.
Qed.

Lemma Retrieve_miss_expired p w prof cached p1 w1 :
  loadProfile p w = Done (Some prof, None) w ->
  loadCachedCreds p w = Done (cached, p1) w1 ->
  Match cached prof = true ->
  (wall_ns (creds_Expiration cached) < now_of w1)%Z ->
  Retrieve p w = live_refresh p1 prof (tick w1).
Proof.
  intros Hl Hc Hm He. unfold Retrieve, bind. rewrite Hl, Hc. simpl.
  rewrite Hm. unfold ret, time_Before. simpl.
  apply Z.ltb_lt in He. unfold now_of in He. rewrite He. reflexivity.
Qed.

Lemma Retrieve_usable p w prof cached p1 w1 :
  loadProfile p w = Done (Some prof, None) w ->
  loadCachedCreds p w = Done (cached, p1) w1 ->
  usable cached prof w1 = true ->
  Retrieve p w = Done (creds_Credentials cached, None, p1) (tick w1).
Proof.
  unfold usable. intros Hl Hc [Hm He]%andb_true_iff.
  apply negb_true_iff, Z.ltb_ge in He. eapply Retrieve_hit; eauto.
Qed.

Lemma Retrieve_not_usable p w prof cached p1 w1 :
  loadProfile p w = Done (Some prof, None) w ->
  loadCachedCreds p w = Done (cached, p1) w1 ->
  usable cached prof w1 = false ->
  Retrieve p w = live_refresh p1 prof (after_test cached prof w1).
Proof.
  unfold usable, after_test. intros Hl Hc Hu.
  destruct (Match cached prof) eqn:Hm; simpl in Hu.
  - apply negb_false_iff, Z.ltb_lt in Hu. eapply Retrieve_miss_expired; eauto.
  - eapply Retrieve_miss_profile; eauto.
Qed.

Lemma retrieve_no_mfa p prof w :
  MFASerial prof = None ->
  retrieve p prof w
  = exchange (with_Duration (effective_Duration p w) p) (SourceProfileName prof)
             (base_request p prof w) (session_world prof w).
Proof.
  intros Hm. unfold retrieve, exchange, base_request, session_world, session_name,
    effective_Duration, bind.
  rewrite Hm. destruct (RoleSessionName prof); simpl;
    destruct (decide (Duration p = 0%Z)); reflexivity.
Qed.

Lemma retrieve_mfa_nil_source p prof w serial :
  MFASerial prof = Some serial ->
  GetToken p = None ->
  retrieve p prof w = Panicked nil_deref (session_world prof w).
Proof.
  intros Hm Hg. unfold retrieve, session_world, bind.
  rewrite Hm. destruct (RoleSessionName prof); simpl;
    destruct (decide (Duration p = 0%Z)); simpl; rewrite Hg; reflexivity.
Qed.

Lemma retrieve_mfa_error p prof w serial get token e :
  MFASerial prof = Some serial ->
  GetToken p = Some get ->
  get (session_world prof w) = (token, Some e) ->
  retrieve p prof w
  = Done (Value_tag_only, mkTime (now_of (session_world prof w)) Local, Some e,
          with_Duration (effective_Duration p w) p)
         (tick (log EvGetToken (session_world prof w))).
Proof.
  intros Hm Hg Ht.
  unfold retrieve, session_world, effective_Duration, bind, tick in *.
  rewrite Hm. destruct (RoleSessionName prof); simpl;
    destruct (decide (Duration p = 0%Z)); simpl; rewrite Hg; simpl;
    unfold call_TokenSource; rewrite Ht; reflexivity.
Qed.

Lemma retrieve_mfa_token p prof w serial get token :
  MFASerial prof = Some serial ->
  GetToken p = Some get ->
  get (session_world prof w) = (token, None) ->
  retrieve p prof w
  = exchange (with_Duration (effective_Duration p w) p) (SourceProfileName prof)
             (mfa_request p prof w serial token)
             (log EvGetToken (session_world prof w)).
Proof.
  intros Hm Hg Ht.
  unfold retrieve, exchange, mfa_request, session_world, session_name,
    effective_Duration, bind, tick in *.
  rewrite Hm. destruct (RoleSessionName prof); simpl;
    destruct (decide (Duration p = 0%Z)); simpl; rewrite Hg; simpl;
    unfold call_TokenSource; rewrite Ht; reflexivity.
Qed.

Lemma exchange_error p source params w o e :
  sts_AssumeRole w source params = (o, Some e) ->
  exchange p source params w
  = Done (Value_tag_only, mkTime (now_of w) Local, Some e, p)
         (tick (log (EvAssumeRole source params) w)).
Proof.
  intros Hs. unfold exchange, call_AssumeRole, bind. rewrite Hs. reflexivity.
Qed.

Lemma exchange_success p source params w ak sk st exp :
  sts_AssumeRole w source params = (Some (sts_success ak sk st exp), None) ->
  exchange p source params w
  = Done (mkValue ak sk st ProviderName, time_UTC exp, None, p)
         (log (EvAssumeRole source params) w).
Proof.
  intros Hs. unfold exchange, call_AssumeRole, bind. rewrite Hs. reflexivity.
Qed.

Lemma live_refresh_eq p prof w :
  live_refresh p prof w
  = match retrieve (with_default_GetToken p) prof w with
    | Done (v, t, _, p') w' => store_and_return (mkCreds v t prof) p' w'
    | Panicked msg w' => Panicked msg w'
    end.
Proof.
  unfold live_refresh, store_and_return, bind.
  destruct (retrieve _ prof w) as [[[[v t] e] p'] w'|]; reflexivity.
Qed.

Lemma GetToken_default p : exists get, GetToken (with_default_GetToken p) = Some get.
Proof.
  unfold with_default_GetToken. destruct (GetToken p) as [get|] eqn:Hg.
  - exists get. exact Hg.
  - exists PromptTokenSource. reflexivity.
Qed.

(** The collaborators are the same before and after the defaults. *)
Lemma session_world_sts prof w :
  sts_AssumeRole (session_world prof w) = sts_AssumeRole w.
Proof. unfold session_world. destruct (RoleSessionName prof); reflexivity. Qed.

Lemma session_world_events prof w : events (session_world prof w) = events w.
Proof. unfold session_world. destruct (RoleSessionName prof); reflexivity. Qed.

(** ** What a result of [retrieve] says about the run *)

(** With no MFA device, or with a token source in place, [retrieve] asks
    at least one of its collaborators. *)
Lemma retrieve_asks p prof w :
  MFASerial prof = None \/ (exists get, GetToken p = Some get) ->
  exists e es, events (world_of (retrieve p prof w)) = events w ++ e :: es.
Proof.
  intros Hcase. destruct (MFASerial prof) as [serial|] eqn:Hm.
  - destruct Hcase as [|[get Hg]]; [discriminate|].
    destruct (get (session_world prof w)) as [token [e|]] eqn:Ht.
    + rewrite (retrieve_mfa_error _ _ _ _ _ _ _ Hm Hg Ht). simpl.
      rewrite session_world_events. eauto.
    + rewrite (retrieve_mfa_token _ _ _ _ _ _ Hm Hg Ht).
      unfold exchange, call_AssumeRole, bind.
      exists EvGetToken,
        [EvAssumeRole (SourceProfileName prof) (mfa_request p prof w serial token)].
      destruct (sts_AssumeRole _ _ _) as [[[[[[ak|] [sk|] [st|] [exp|]]|]]|] [e|]];
        simpl; rewrite session_world_events, <- app_assoc; reflexivity.
  - rewrite (retrieve_no_mfa _ _ _ Hm).
    unfold exchange, call_AssumeRole, bind.
    exists (EvAssumeRole (SourceProfileName prof) (base_request p prof w)), [].
    destruct (sts_AssumeRole _ _ _) as [[[[[[ak|] [sk|] [st|] [exp|]]|]]|] [e|]];
      simpl; rewrite session_world_events; reflexivity.
Qed.

Lemma exchange_error_inv p source params w v t e p' w' :
  exchange p source params w = Done (v, t, Some e, p') w' ->
  (exists o, sts_AssumeRole w source params = (o, Some e))
  /\ v = Value_tag_only /\ t = mkTime (now_of w) Local /\ p' = p
  /\ w' = tick (log (EvAssumeRole source params) w).
Proof.
  unfold exchange, call_AssumeRole, bind.
  destruct (sts_AssumeRole w source params)
    as [[[[[[ak|] [sk|] [st|] [exp|]]|]]|] [e'|]] eqn:Hs;
    simpl; intros [= <- <- <- <- <-]; eauto 10.
Qed.

Lemma exchange_success_inv p source params w v t p' w' :
  exchange p source params w = Done (v, t, None, p') w' ->
  exists ak sk st exp,
    sts_AssumeRole w source params = (Some (sts_success ak sk st exp), None)
    /\ v = mkValue ak sk st ProviderName /\ t = time_UTC exp /\ p' = p
    /\ w' = log (EvAssumeRole source params) w.
Proof.
  unfold exchange, call_AssumeRole, bind.
  destruct (sts_AssumeRole w source params)
    as [[[[[[ak|] [sk|] [st|] [exp|]]|]]|] [e'|]] eqn:Hs;
    simpl; try discriminate.
  intros [= <- <- <- <-]. exists ak, sk, st, exp. auto.
Qed.

(** A refresh that reports an error returns the tagged empty value and the
    clock reading taken on the way out; the error is the token source's, and
    then STS was not asked, or it is the one STS answered. *)
Lemma retrieve_error_inv p prof w v t e p' w' :
  retrieve p prof w = Done (v, t, Some e, p') w' ->
  v = Value_tag_only
  /\ (exists w0, time_Now w0 = Done t w')
  /\ p' = with_Duration (effective_Duration p w) p
  /\ ((exists serial get token,
          MFASerial prof = Some serial /\ GetToken p = Some get
          /\ get (session_world prof w) = (token, Some e)
          /\ events w' = events w ++ [EvGetToken])
      \/ (exists params o,
            sts_AssumeRole w (SourceProfileName prof) params = (o, Some e)
            /\ last (events w') = Some (EvAssumeRole (SourceProfileName prof) params))).
Proof.
  intros Hr. destruct (MFASerial prof) as [serial|] eqn:Hm.
  - destruct (GetToken p) as [get|] eqn:Hg.
    2: { rewrite (retrieve_mfa_nil_source _ _ _ _ Hm Hg) in Hr. discriminate. }
    destruct (get (session_world prof w)) as [token [e'|]] eqn:Ht.
    + rewrite (retrieve_mfa_error _ _ _ _ _ _ _ Hm Hg Ht) in Hr.
      injection Hr as <- <- <- <- <-.
      split; [reflexivity|].
      split; [exists (log EvGetToken (session_world prof w)); reflexivity|].
      split; [reflexivity|]. left. exists serial, get, token.
      simpl. rewrite session_world_events. auto.
    + rewrite (retrieve_mfa_token _ _ _ _ _ _ Hm Hg Ht) in Hr.
      apply exchange_error_inv in Hr as ([o Hs] & -> & -> & -> & ->).
      split; [reflexivity|].
      split.
      { exists (log (EvAssumeRole (SourceProfileName prof)
                       (mfa_request p prof w serial token))
                    (log EvGetToken (session_world prof w))).
        reflexivity. }
      split; [reflexivity|]. right. eexists _, o. split.
      * simpl in Hs. rewrite session_world_sts in Hs. exact Hs.
      * simpl. apply last_snoc.
  - rewrite (retrieve_no_mfa _ _ _ Hm) in Hr.
    apply exchange_error_inv in Hr as ([o Hs] & -> & -> & -> & ->).
    split; [reflexivity|].
    split.
    { exists (log (EvAssumeRole (SourceProfileName prof) (base_request p prof w))
                  (session_world prof w)).
      reflexivity. }
    split; [reflexivity|]. right. eexists _, o. split.
    + rewrite session_world_sts in Hs. exact Hs.
    + simpl. apply last_snoc.
Qed.

(** A refresh that reports no error has asked STS, and hands back what STS
    answered, the expiry moved to UTC. *)
Lemma retrieve_success_inv p prof w v t p' w' :
  retrieve p prof w = Done (v, t, None, p') w' ->
  exists params ak sk st exp,
    sts_AssumeRole w (SourceProfileName prof) params
    = (Some (sts_success ak sk st exp), None)
    /\ last (events w') = Some (EvAssumeRole (SourceProfileName prof) params)
    /\ v = mkValue ak sk st ProviderName /\ t = time_UTC exp
    /\ p' = with_Duration (effective_Duration p w) p.
Proof.
  intros Hr. destruct (MFASerial prof) as [serial|] eqn:Hm.
  - destruct (GetToken p) as [get|] eqn:Hg.
    2: { rewrite (retrieve_mfa_nil_source _ _ _ _ Hm Hg) in Hr. discriminate. }
    destruct (get (session_world prof w)) as [token [e'|]] eqn:Ht.
    + rewrite (retrieve_mfa_error _ _ _ _ _ _ _ Hm Hg Ht) in Hr. discriminate.
    + rewrite (retrieve_mfa_token _ _ _ _ _ _ Hm Hg Ht) in Hr.
      apply exchange_success_inv in Hr as (ak & sk & st & exp & Hs & -> & -> & -> & ->).
      eexists _, ak, sk, st, exp. split.
      * simpl in Hs. rewrite session_world_sts in Hs. exact Hs.
      * split; [simpl; apply last_snoc|auto].
  - rewrite (retrieve_no_mfa _ _ _ Hm) in Hr.
    apply exchange_success_inv in Hr as (ak & sk & st & exp & Hs & -> & -> & -> & ->).
    eexists _, ak, sk, st, exp. split.
    + rewrite session_world_sts in Hs. exact Hs.
    + split; [simpl; apply last_snoc|auto].
Qed.

(** ** The cache held by the provider *)

Lemma loadCachedCreds_inv p w cached p1 w1 :
  loadCachedCreds p w = Done (cached, p1) w1 ->
  exists c c1 text found,
    p_Cache p = Some c
    /\ Cache_Get "credentials" c w = Done (text, found, c1) w1
    /\ p1 = with_Cache (Some c1) p
    /\ cached = if found then (json_Unmarshal_creds text creds_zero).1 else creds_zero.
Proof.
  unfold loadCachedCreds, provider_Cache_Get, bind.
  destruct (p_Cache p) as [c|]; [|discriminate].
  destruct (Cache_Get "credentials" c w) as [[[text found] c1] w'|] eqn:Hg;
    [|discriminate].
  simpl. intros Heq. exists c, c1, text, found.
  destruct found; injection Heq as <- <- <-; auto.
Qed.

Lemma provider_Cache_Set_eq p c key value w :
  p_Cache p = Some c ->
  provider_Cache_Set key value p w
  = match Cache_Set key value c w with
    | Done c' w' => Done (with_Cache (Some c') p) w'
    | Panicked msg w' => Panicked msg w'
    end.
Proof. intros Hc. unfold provider_Cache_Set, bind. rewrite Hc. reflexivity. Qed.

(** Any error [Retrieve] returns is one [loadProfile] returned: past line
    100 every [return] of the function has a nil error. *)
Lemma Retrieve_error_inv p w v e p' w' :
  Retrieve p w = Done (v, Some e, p') w' ->
  exists o, loadProfile p w = Done (o, Some e) w.
Proof.
  unfold Retrieve, bind.
  destruct (loadProfile p w) as [[o [e0|]] w0|] eqn:Hl; [| |discriminate].
  - pose proof (loadProfile_world _ _ _ _ Hl) as ->.
    intros [= <- <- <- <-]. eauto.
  - destruct (loadCachedCreds p w0) as [[cached p1] w1|]; [|discriminate].
    destruct o as [prof|]; [|discriminate]. simpl.
    destruct (Match cached prof); simpl.
    + destruct (negb _); simpl; [discriminate|].
      destruct (retrieve _ prof _) as [[[[v1 t1] e1] p3] w3|]; [|discriminate].
      destruct (json_Marshal_creds _) as [js [e2|]]; simpl; [discriminate|].
      destruct (provider_Cache_Set _ _ _ _); discriminate.
    + destruct (retrieve _ prof _) as [[[[v1 t1] e1] p3] w3|]; [|discriminate].
      destruct (json_Marshal_creds _) as [js [e2|]]; simpl; [discriminate|].
      destruct (provider_Cache_Set _ _ _ _); discriminate.
Qed.

(** Once the cached record is turned down, the call is its live refresh
    followed by lines 111 to 121. *)
Lemma Retrieve_refresh p w prof cached p1 w1 v t err p3 w3 :
  loadProfile p w = Done (Some prof, None) w ->
  loadCachedCreds p w = Done (cached, p1) w1 ->
  usable cached prof w1 = false ->
  retrieve (with_default_GetToken p1) prof (after_test cached prof w1)
  = Done (v, t, err, p3) w3 ->
  Retrieve p w = store_and_return (mkCreds v t prof) p3 w3.
Proof.
  intros Hl Hc Hu Hr.
  rewrite (Retrieve_not_usable _ _ _ _ _ _ Hl Hc Hu), live_refresh_eq, Hr.
  reflexivity.
Qed.

Lemma store_and_return_eq (r : creds) p c w :
  p_Cache p = Some c ->
  store_and_return r p w
  = match json_Marshal_creds r with
    | (cachedJSON, None) =>
        match Cache_Set "credentials" cachedJSON c w with
        | Done c' w' => Done (creds_Credentials r, None, with_Cache (Some c') p) w'
        | Panicked msg w' => Panicked msg w'
        end
    | (_, Some _) => Done (creds_Credentials r, None, p) w
    end.
Proof.
  intros Hc. unfold store_and_return, bind.
  destruct (json_Marshal_creds r) as [js [e|]]; [reflexivity|].
  rewrite (provider_Cache_Set_eq _ _ _ _ _ Hc).
  destruct (Cache_Set _ _ _ _); reflexivity.
Qed.

Lemma IsExpired_false (c : creds) w :
  IsExpired c w = Done false (tick w) <-> (now_of w <= wall_ns (creds_Expiration c))%Z.
Proof.
  rewrite IsExpired_eq. split.
  - intros [= He]. apply Z.ltb_ge. exact He.
  - intros He%Z.ltb_ge. rewrite He. reflexivity.
Qed.

(** A record that is still good once the early-refresh window is taken
    off its expiry is one [IsExpired] lets through; the converse fails, see
    [Retrieve_ExpiryWindow]. *)
Lemma IsExpired_false_before_window (c : creds) w (window : Z) :
  (0 <= window)%Z ->
  (now_of w < wall_ns (creds_Expiration c) - window)%Z ->
  IsExpired c w = Done false (tick w).
Proof. intros Hw Hlt. apply IsExpired_false. lia. Qed.

Lemma asked_tick {A} (a : A) w : asked w (Done a (tick w)) = [].
Proof. unfold asked. simpl. apply drop_all. Qed.

(** ** The early-refresh window is never read

    [ExpiryWindow] is a field that no function of the package looks at: a
    run with another window is the same run, that field of the provider
    apart. *)

Lemma exchange_on_provider f p source params w :
  exchange (f p) source params w = on_provider f (exchange p source params w).
Proof.
  unfold exchange, call_AssumeRole, bind.
  destruct (sts_AssumeRole w source params)
    as [[[[[[ak|] [sk|] [st|] [exp|]]|]]|] [e'|]]; reflexivity.
Qed.

Lemma retrieve_ExpiryWindow x p prof w :
  retrieve (with_ExpiryWindow x p) prof w
  = on_provider (with_ExpiryWindow x) (retrieve p prof w).
Proof.
  destruct (MFASerial prof) as [serial|] eqn:Hm.
  - destruct (GetToken p) as [get|] eqn:Hg.
    + destruct (get (session_world prof w)) as [token [e|]] eqn:Ht.
      * rewrite (retrieve_mfa_error _ _ _ _ _ _ _ Hm Hg Ht).
        rewrite (retrieve_mfa_error (with_ExpiryWindow x p) _ _ _ _ _ _ Hm Hg Ht).
        reflexivity.
      * rewrite (retrieve_mfa_token _ _ _ _ _ _ Hm Hg Ht).
        rewrite (retrieve_mfa_token (with_ExpiryWindow x p) _ _ _ _ _ Hm Hg Ht).
        exact (exchange_on_provider (with_ExpiryWindow x)
                 (with_Duration (effective_Duration p w) p) _
                 (mfa_request p prof w serial token) _).
    + rewrite (retrieve_mfa_nil_source _ _ _ _ Hm Hg).
      rewrite (retrieve_mfa_nil_source (with_ExpiryWindow x p) _ _ _ Hm Hg).
      reflexivity.
  - rewrite !(retrieve_no_mfa _ _ _ Hm).
    exact (exchange_on_provider (with_ExpiryWindow x)
             (with_Duration (effective_Duration p w) p) _ (base_request p prof w) _).
Qed.

Lemma with_default_GetToken_ExpiryWindow x p :
  with_default_GetToken (with_ExpiryWindow x p)
  = with_ExpiryWindow x (with_default_GetToken p).
Proof. unfold with_default_GetToken. simpl. destruct (GetToken p); reflexivity. Qed.

Lemma store_and_return_ExpiryWindow x (r : creds) p w :
  store_and_return r (with_ExpiryWindow x p) w
  = on_provider (with_ExpiryWindow x) (store_and_return r p w).
Proof.
  unfold store_and_return, provider_Cache_Set, bind. simpl.
  destruct (json_Marshal_creds r) as [js [e|]]; [reflexivity|].
  destruct (p_Cache p) as [c|]; [|reflexivity].
  destruct (Cache_Set "credentials" js c w); reflexivity.
Qed.

Lemma live_refresh_ExpiryWindow x p prof w :
  live_refresh (with_ExpiryWindow x p) prof w
  = on_provider (with_ExpiryWindow x) (live_refresh p prof w).
Proof.
  rewrite !live_refresh_eq, with_default_GetToken_ExpiryWindow, retrieve_ExpiryWindow.
  destruct (retrieve (with_default_GetToken p) prof w) as [[[[v t] e] p'] w'|];
    [|reflexivity].
  apply store_and_return_ExpiryWindow.
Qed.

Lemma loadCachedCreds_ExpiryWindow x p w :
  loadCachedCreds (with_ExpiryWindow x p) w
  = on_provider (with_ExpiryWindow x) (loadCachedCreds p w).
Proof.
  unfold loadCachedCreds, provider_Cache_Get, bind. simpl.
  destruct (p_Cache p) as [c|]; [|reflexivity].
  destruct (Cache_Get "credentials" c w) as [[[text found] c1] w1|]; [|reflexivity].
  destruct found; reflexivity.
Qed.

Lemma Retrieve_ExpiryWindow x p w :
  Retrieve (with_ExpiryWindow x p) w
  = on_provider (with_ExpiryWindow x) (Retrieve p w).
Proof.
  assert (Hsame : loadProfile (with_ExpiryWindow x p) w = loadProfile p w)
    by reflexivity.
  destruct (loadProfile p w) as [[o [e|]] w0|] eqn:Hl.
  - pose proof (loadProfile_world _ _ _ _ Hl) as ->.
    rewrite (Retrieve_load_error _ _ _ _ Hl).
    rewrite (Retrieve_load_error (with_ExpiryWindow x p) _ _ _ Hsame).
    reflexivity.
  - pose proof (loadProfile_world _ _ _ _ Hl) as ->.
    destruct (loadProfile_nil_error _ _ _ _ Hl) as (prof & -> & _).
    pose proof (loadCachedCreds_ExpiryWindow x p w) as Hc.
    destruct (loadCachedCreds p w) as [[cached p1] w1|msg w1] eqn:Hc0.
    + simpl in Hc. destruct (usable cached prof w1) eqn:Hu.
      * rewrite (Retrieve_usable _ _ _ _ _ _ Hl Hc0 Hu).
        rewrite (Retrieve_usable _ _ _ _ _ _ Hsame Hc Hu). reflexivity.
      * rewrite (Retrieve_not_usable _ _ _ _ _ _ Hl Hc0 Hu).
        rewrite (Retrieve_not_usable _ _ _ _ _ _ Hsame Hc Hu).
        apply live_refresh_ExpiryWindow.
    + simpl in Hc. unfold Retrieve, bind. rewrite Hsame, Hl, Hc, Hc0. reflexivity.
  - unfold Retrieve, bind. rewrite Hsame, Hl. reflexivity.
Qed.

(** ** What [Retrieve] and [retrieve] do, path by path *)

(** C4. When the cached record carries the profile just loaded and
    [IsExpired] says no, [Retrieve] returns the cached credentials as they
    are, with a nil error; past the cache read it only reads the clock, so
    neither STS nor the token source is asked.  A second call that finds
    the same record, still not expired, returns the same credentials and
    asks nothing either. *)
Theorem C4_cache_hit_returns_cached p w prof cached p1 w1 :
  loadProfile p w = Done (Some prof, None) w ->
  loadCachedCreds p w = Done (cached, p1) w1 ->
  creds_Profile cached = prof ->
  IsExpired cached w1 = Done false (tick w1) ->
  Retrieve p w = Done (creds_Credentials cached, None, p1) (tick w1)
  /\ asked w1 (Retrieve p w) = []
  /\ forall p2 w2,
       loadProfile p1 (tick w1) = Done (Some prof, None) (tick w1) ->
       loadCachedCreds p1 (tick w1) = Done (cached, p2) w2 ->
       IsExpired cached w2 = Done false (tick w2) ->
       Retrieve p1 (tick w1) = Done (creds_Credentials cached, None, p2) (tick w2)
       /\ asked w2 (Retrieve p1 (tick w1)) = [].
Proof.
  intros Hl Hc Hm%Match_spec He%IsExpired_false.
  assert (Hfirst := Retrieve_hit _ _ _ _ _ _ Hl Hc Hm He).
  split; [exact Hfirst|]. split.
  - rewrite Hfirst. apply asked_tick.
  - intros p2 w2 Hl2 Hc2 He2%IsExpired_false.
    assert (Hsecond := Retrieve_hit _ _ _ _ _ _ Hl2 Hc2 Hm He2).
    split; [exact Hsecond|]. rewrite Hsecond. apply asked_tick.
Qed.

(** C5. [Match] holds exactly when all six fields of the two profiles are
    equal, a nil pointer being equal to a nil pointer only.  A cached record
    whose profile differs from the loaded one in any field is therefore not
    usable, and [Retrieve] goes on to the live refresh. *)
Theorem C5_any_field_difference_is_a_miss (cached : creds) prof :
  (Match cached prof = true <->
     Name (creds_Profile cached) = Name prof
     /\ RoleARN (creds_Profile cached) = RoleARN prof
     /\ SourceProfileName (creds_Profile cached) = SourceProfileName prof
     /\ RoleSessionName (creds_Profile cached) = RoleSessionName prof
     /\ MFASerial (creds_Profile cached) = MFASerial prof
     /\ ExternalID (creds_Profile cached) = ExternalID prof)
  /\ (creds_Profile cached ≠ prof ->
      Match cached prof = false
      /\ (forall w, usable cached prof w = false)
      /\ forall p w p1 w1,
           loadProfile p w = Done (Some prof, None) w ->
           loadCachedCreds p w = Done (cached, p1) w1 ->
           Retrieve p w = live_refresh p1 prof w1).
Proof.
  split.
  - rewrite Match_spec. destruct (creds_Profile cached), prof; simpl. split.
    + intros [= -> -> -> -> -> ->]. repeat split.
    + intros (-> & -> & -> & -> & -> & ->). reflexivity.
  - intros Hne%Match_false. split; [exact Hne|]. split.
    + intros w. unfold usable. rewrite Hne. reflexivity.
    + intros p w p1 w1 Hl Hc. eapply Retrieve_miss_profile; eauto.
Qed.

(** C7. For a profile without an MFA serial, [retrieve] asks exactly one
    thing of the outside: the role assumption, with a request whose
    [SerialNumber] and [TokenCode] are nil.  The token source is not called. *)
Theorem C7_no_MFA_no_token p prof w :
  MFASerial prof = None ->
  asked w (retrieve p prof w)
  = [EvAssumeRole (SourceProfileName prof) (base_request p prof w)]
  /\ SerialNumber (base_request p prof w) = None
  /\ TokenCode (base_request p prof w) = None
  /\ (EvGetToken ∉ asked w (retrieve p prof w)).
Proof.
  intros Hm.
  assert (Hasked : asked w (retrieve p prof w)
                   = [EvAssumeRole (SourceProfileName prof) (base_request p prof w)]).
  { rewrite (retrieve_no_mfa _ _ _ Hm). unfold asked, exchange, call_AssumeRole, bind.
    destruct (sts_AssumeRole _ _ _) as [[[[[[ak|] [sk|] [st|] [exp|]]|]]|] [e|]];
      simpl; rewrite session_world_events; apply drop_app_length. }
  rewrite Hasked. repeat split.
  intros Hin%list_elem_of_singleton. discriminate.
Qed.

Lemma retrieve_result_Cache p prof w v t err p' w' :
  retrieve p prof w = Done (v, t, err, p') w' -> p_Cache p' = p_Cache p.
Proof.
  intros Hr. destruct err as [e|].
  - apply retrieve_error_inv in Hr as (_ & _ & -> & _). reflexivity.
  - apply retrieve_success_inv in Hr as (? & ? & ? & ? & ? & _ & _ & _ & _ & ->).
    reflexivity.
Qed.

Lemma with_default_GetToken_Cache p : p_Cache (with_default_GetToken p) = p_Cache p.
Proof. unfold with_default_GetToken. destruct (GetToken p); reflexivity. Qed.

(** X19. When the live refresh ends without an error, STS has answered
    with a full set of credentials; [Retrieve] builds the record of the
    loaded profile, those credentials under the provider's name, and the
    expiry moved to UTC.  If [json.Marshal] accepts the record, the rest of
    the call is the cache's [Set] with the key credentials and that text:
    the credentials are returned with a nil error when [Set] returns, and
    [Retrieve] panics when [Set] does.  If [json.Marshal] fails, nothing
    goes to the cache and the credentials are returned all the same. *)
Theorem X19_a_successful_refresh_goes_to_the_cache
    p w prof cached p1 w1 v t p3 w3 :
  loadProfile p w = Done (Some prof, None) w ->
  loadCachedCreds p w = Done (cached, p1) w1 ->
  usable cached prof w1 = false ->
  retrieve (with_default_GetToken p1) prof (after_test cached prof w1)
  = Done (v, t, None, p3) w3 ->
  (exists params ak sk st exp,
      sts_AssumeRole w1 (SourceProfileName prof) params
      = (Some (sts_success ak sk st exp), None)
      /\ last (events w3) = Some (EvAssumeRole (SourceProfileName prof) params)
      /\ v = mkValue ak sk st ProviderName
      /\ t = time_UTC exp)
  /\ loc t = UTC
  /\ exists c3,
      p_Cache p3 = Some c3
      /\ match json_Marshal_creds (mkCreds v t prof) with
         | (cachedJSON, None) =>
             Retrieve p w
             = (c4 <- Cache_Set "credentials" cachedJSON c3 ;;
                ret (v, None, with_Cache (Some c4) p3))%go w3
         | (_, Some _) => Retrieve p w = Done (v, None, p3) w3
         end.
Proof.
  intros Hl Hc Hu Hr.
  pose proof (Retrieve_refresh _ _ _ _ _ _ _ _ _ _ _ Hl Hc Hu Hr) as HR.
  pose proof (retrieve_result_Cache _ _ _ _ _ _ _ _ Hr) as Hc3.
  rewrite with_default_GetToken_Cache in Hc3.
  apply loadCachedCreds_inv in Hc as (c & c1 & text & found & _ & _ & -> & _).
  simpl in Hc3.
  apply retrieve_success_inv in Hr as (params & ak & sk & st & exp & Hs & Hlast & -> & -> & _).
  split.
  { exists params, ak, sk, st, exp. repeat split; try assumption.
    rewrite <- Hs. unfold after_test. destruct (Match _ _); reflexivity. }
  split; [reflexivity|].
  exists c1. split; [exact Hc3|].
  rewrite HR, (store_and_return_eq _ _ _ _ Hc3). unfold bind.
  destruct (json_Marshal_creds _) as [js [e|]]; reflexivity.
Qed.

(** X20. When the profile loads, the cached record is turned down and the
    live refresh reports an error (the token source's or the one STS
    answered), [Retrieve] builds a record of the loaded profile, the empty
    credentials under the provider's name, and the clock reading taken when
    the refresh gave up.  If [json.Marshal] accepts the record, the rest of
    the call is the cache's [Set] with the key credentials and that text:
    the empty credentials are returned with a nil error when [Set] returns,
    and [Retrieve] panics when [Set] does.  If [json.Marshal] fails, nothing
    goes to the cache.  The error of the refresh is returned in no case. *)
Theorem X20_a_failed_refresh_goes_to_the_cache
    p w prof cached p1 w1 v t e p3 w3 :
  loadProfile p w = Done (Some prof, None) w ->
  loadCachedCreds p w = Done (cached, p1) w1 ->
  usable cached prof w1 = false ->
  retrieve (with_default_GetToken p1) prof (after_test cached prof w1)
  = Done (v, t, Some e, p3) w3 ->
  v = Value_tag_only
  /\ (exists w0, time_Now w0 = Done t w3)
  /\ exists c3,
      p_Cache p3 = Some c3
      /\ match json_Marshal_creds (mkCreds Value_tag_only t prof) with
         | (cachedJSON, None) =>
             Retrieve p w
             = (c4 <- Cache_Set "credentials" cachedJSON c3 ;;
                ret (Value_tag_only, None, with_Cache (Some c4) p3))%go w3
         | (_, Some _) => Retrieve p w = Done (Value_tag_only, None, p3) w3
         end.
Proof.
  intros Hl Hc Hu Hr.
  pose proof (Retrieve_refresh _ _ _ _ _ _ _ _ _ _ _ Hl Hc Hu Hr) as HR.
  pose proof (retrieve_result_Cache _ _ _ _ _ _ _ _ Hr) as Hc3.
  rewrite with_default_GetToken_Cache in Hc3.
  apply loadCachedCreds_inv in Hc as (c & c1 & text & found & _ & _ & -> & _).
  simpl in Hc3.
  apply retrieve_error_inv in Hr as (-> & Hnow & _ & _).
  split; [reflexivity|]. split; [exact Hnow|].
  exists c1. split; [exact Hc3|].
  rewrite HR, (store_and_return_eq _ _ _ _ Hc3). unfold bind.
  destruct (json_Marshal_creds _) as [js [e'|]]; reflexivity.
Qed.


(** [loadProfile] looks at the profile name, the home directory and the
    config file, and at nothing else. *)
Lemma loadProfile_ext {C'} `{Cache C'} p (p' : AssumeRoleProfileProvider C') w w' r :
  ProfileName p' = ProfileName p ->
  homedir_Dir w' = homedir_Dir w ->
  ini_Load w' = ini_Load w ->
  loadProfile p w = Done r w ->
  loadProfile p' w' = Done r w'.
Proof.
  unfold loadProfile. intros -> -> -> Hl.
  repeat (match type of Hl with
          | context [match ?x with _ => _ end] => destruct x
          end; try congruence).
Qed.

End Facts.

(** ** The file cache *)

Section FileCacheFacts.
Context `{J : EncodingJSON}.
Implicit Types (f : FileCache) (w : World) (p : AssumeRoleProfileProvider FileCache).

Lemma os_Open_files (name : string) w w' :
  files w' = files w -> os_Open name w' = os_Open name w.
Proof. unfold os_Open. intros ->. reflexivity. Qed.

(** [readConf] leaves the world alone, and depends on its files only. *)
Lemma FileCache_readConf_world f w :
  exists d, forall w',
      files w' = files w ->
      FileCache_readConf f w' = Done (mkFileCache d (filename f)) w'.
Proof.
  unfold FileCache_readConf. simpl. destruct (os_Open (filename f) w) as [stream|] eqn:Ho.
  - destruct (json_Decode_map stream (Some ∅)) as [d e] eqn:Hd. exists d.
    intros w' Hw. rewrite (os_Open_files _ _ _ Hw), Ho, Hd. reflexivity.
  - exists (Some ∅). intros w' Hw. rewrite (os_Open_files _ _ _ Hw), Ho. reflexivity.
Qed.


Lemma FileCache_Get_loaded f m key w :
  data f = Some m ->
  FileCache_Get key f w
  = Done (match m !! key with
          | Some value => (value, true, f)
          | None => ("", false, f)
          end) w.
Proof.
  intros Hd. unfold FileCache_Get, bind. rewrite Hd. simpl. rewrite Hd. simpl.
  destruct (m !! key); reflexivity.
Qed.

(** Reading the file cache never panics and never changes the world; a
    second read, in a world with the same files, gives the same answer and
    leaves the cache as the first read left it. *)
Lemma FileCache_Get_stable f key w :
  exists r,
    FileCache_Get key f w = Done r w
    /\ forall w', files w' = files w -> FileCache_Get key r.2 w' = Done r w'.
Proof.
  destruct (data f) as [m|] eqn:Hd.
  - rewrite (FileCache_Get_loaded _ _ _ _ Hd).
    destruct (m !! key) as [value|] eqn:Hk; eexists; (split; [reflexivity|]);
      intros w' _; simpl; rewrite (FileCache_Get_loaded _ _ _ _ Hd), Hk; reflexivity.
  - destruct (FileCache_readConf_world f w) as [d Hread].
    unfold FileCache_Get, bind. rewrite Hd, (Hread w eq_refl). simpl.
    destruct d as [m|]; simpl.
    + destruct (m !! key) as [value|] eqn:Hk; eexists; (split; [reflexivity|]);
        intros w' _; simpl; rewrite Hk; reflexivity.
    + eexists. split; [reflexivity|]. intros w' Hw. simpl.
      destruct (FileCache_readConf_world (mkFileCache None (filename f)) w)
        as [d' Hread'].
      pose proof (Hread' w eq_refl) as Heq.
      change (FileCache_readConf (mkFileCache None (filename f)) w)
        with (FileCache_readConf f w) in Heq.
      rewrite (Hread w eq_refl) in Heq. injection Heq as <-.
      rewrite (Hread' w' Hw). reflexivity.
Qed.

(** Writing to the file cache returns, with the entry in the map, whenever
    the map is there or [readConf] leaves one.  It panics in the one case
    where the decoder leaves a nil map (a file that holds the JSON value
    null): line 45 then assigns to an entry of a nil map. *)
Lemma FileCache_Set_loaded f m key value w :
  data f = Some m ->
  exists w', FileCache_Set key value f w
             = Done (mkFileCache (Some (<[key := value]> m)) (filename f)) w'.
Proof.
  intros Hd. unfold FileCache_Set, bind. rewrite Hd. simpl. rewrite Hd.
  unfold FileCache_writeConf. simpl.
  destruct (os_OpenFile_trunc (filename f) w); simpl; eauto.
Qed.

Lemma FileCache_Set_nil_map f key value w stream e :
  data f = None ->
  os_Open (filename f) w = Some stream ->
  json_Decode_map stream (Some ∅) = (None, e) ->
  FileCache_Set key value f w = Panicked "assignment to entry in nil map" w.
Proof.
  intros Hd Ho Hdec. unfold FileCache_Set, FileCache_readConf, bind.
  rewrite Hd. simpl. rewrite Ho, Hdec. reflexivity.
Qed.




(** With the file cache, the hit of C4 repeats by itself: the first call
    leaves the map loaded, so the second one reads the same record, and as
    long as the clock has not passed the expiry it returns the same
    credentials.  Over both calls the world only sees two clock readings. *)
Lemma FileCache_hit_twice p w prof cached p1 w1 :
  loadProfile p w = Done (Some prof, None) w ->
  loadCachedCreds p w = Done (cached, p1) w1 ->
  creds_Profile cached = prof ->
  (clock w (S (ticks w)) <= wall_ns (creds_Expiration cached))%Z ->
  (clock w (ticks w) <= wall_ns (creds_Expiration cached))%Z ->
  w1 = w
  /\ Retrieve p w = Done (creds_Credentials cached, None, p1) (tick w)
  /\ Retrieve p1 (tick w) = Done (creds_Credentials cached, None, p1) (tick (tick w))
  /\ events (tick (tick w)) = events w.
Proof.
  intros Hl Hc Hm%Match_spec He2 He1.
  pose proof Hc as Hc'.
  apply loadCachedCreds_inv in Hc' as (f & f1 & text & found & Hp & Hg & -> & Hcached).
  simpl in Hg.
  destruct (FileCache_Get_stable f "credentials" w) as (r & Hr & Hagain).
  rewrite Hr in Hg. injection Hg as -> <-.
  split; [reflexivity|].
  split; [eapply Retrieve_hit; eauto|].
  assert (Hc2 : loadCachedCreds (with_Cache (Some f1) p) (tick w)
                = Done (cached, with_Cache (Some f1) p) (tick w)).
  { unfold loadCachedCreds, provider_Cache_Get, bind. simpl.
    change f1 with (text, found, f1).2 at 1.
    rewrite (Hagain (tick w) eq_refl). simpl.
    rewrite Hcached. destruct found; reflexivity. }
  split; [|reflexivity].
  eapply Retrieve_hit; [|exact Hc2|exact Hm|exact He2].
  eapply loadProfile_ext; [| | |exact Hl]; reflexivity.
Qed.

End FileCacheFacts.

(** * More of the provider *)

Section ProviderFacts.
Context `{J : EncodingJSON} {C : Type} `{HC : Cache C}.
Implicit Types (p : AssumeRoleProfileProvider C) (prof : profile) (w : World).

Lemma same_collaborators_refl w : same_collaborators w w.
Proof. repeat split. Qed.

Lemma same_collaborators_trans w1 w2 w3 :
  same_collaborators w1 w2 -> same_collaborators w2 w3 -> same_collaborators w1 w3.
Proof.
  unfold same_collaborators.
  intros (?&?&?&?&?&?&?&?&?) (?&?&?&?&?&?&?&?&?). repeat split; congruence.
Qed.

(** The requests of the exchange step, whatever its outcome. *)
Lemma exchange_events p source params w :
  events (world_of (exchange p source params w))
  = events w ++ [EvAssumeRole source params].
Proof.
  unfold exchange, call_AssumeRole, bind.
  destruct (sts_AssumeRole w source params)
    as [[[[[[ak|] [sk|] [st|] [exp|]]|]]|] [e'|]]; reflexivity.
Qed.

Lemma exchange_world p source params w :
  same_collaborators w (world_of (exchange p source params w))
  /\ files (world_of (exchange p source params w)) = files w.
Proof.
  unfold exchange, call_AssumeRole, bind.
  destruct (sts_AssumeRole w source params)
    as [[[[[[ak|] [sk|] [st|] [exp|]]|]]|] [e'|]]; repeat split.
Qed.

Lemma session_world_same prof w :
  same_collaborators w (session_world prof w)
  /\ files (session_world prof w) = files w.
Proof. unfold session_world. destruct (RoleSessionName prof); repeat split. Qed.

(** The requests of [retrieve], case by case. *)
Lemma retrieve_asked p prof w :
  asked w (retrieve p prof w)
  = match MFASerial prof with
    | None => [EvAssumeRole (SourceProfileName prof) (base_request p prof w)]
    | Some serial =>
        match GetToken p with
        | None => []
        | Some get =>
            match get (session_world prof w) with
            | (_, Some _) => [EvGetToken]
            | (token, None) =>
                [EvGetToken;
                 EvAssumeRole (SourceProfileName prof)
                              (mfa_request p prof w serial token)]
            end
        end
    end.
Proof.
  unfold asked. destruct (MFASerial prof) as [serial|] eqn:Hm.
  - destruct (GetToken p) as [get|] eqn:Hg.
    + destruct (get (session_world prof w)) as [token [e|]] eqn:Ht.
      * rewrite (retrieve_mfa_error _ _ _ _ _ _ _ Hm Hg Ht). simpl.
        rewrite session_world_events. apply drop_app_length.
      * rewrite (retrieve_mfa_token _ _ _ _ _ _ Hm Hg Ht), exchange_events. simpl.
        rewrite session_world_events, <- app_assoc. apply drop_app_length.
    + rewrite (retrieve_mfa_nil_source _ _ _ _ Hm Hg). simpl.
      rewrite session_world_events. apply drop_all.
  - rewrite (retrieve_no_mfa _ _ _ Hm), exchange_events, session_world_events.
    apply drop_app_length.
Qed.

(** [retrieve] reads the clock and talks to its collaborators; it leaves
    the files and the collaborators as they are. *)
Lemma retrieve_world p prof w :
  same_collaborators w (world_of (retrieve p prof w))
  /\ files (world_of (retrieve p prof w)) = files w.
Proof.
  destruct (session_world_same prof w) as [Hs Hf].
  destruct (MFASerial prof) as [serial|] eqn:Hm.
  - destruct (GetToken p) as [get|] eqn:Hg.
    + destruct (get (session_world prof w)) as [token [e|]] eqn:Ht.
      * rewrite (retrieve_mfa_error _ _ _ _ _ _ _ Hm Hg Ht). simpl.
        split; [exact Hs|exact Hf].
      * rewrite (retrieve_mfa_token _ _ _ _ _ _ Hm Hg Ht).
        match goal with
        | |- context [exchange ?q ?s ?r ?w0] =>
            destruct (exchange_world q s r w0) as [He Hef]
        end.
        split.
        -- eapply same_collaborators_trans; [|exact He]. exact Hs.
        -- rewrite Hef. exact Hf.
    + rewrite (retrieve_mfa_nil_source _ _ _ _ Hm Hg). simpl.
      split; [exact Hs|exact Hf].
  - rewrite (retrieve_no_mfa _ _ _ Hm).
    match goal with
    | |- context [exchange ?q ?s ?r ?w0] =>
        destruct (exchange_world q s r w0) as [He Hef]
    end.
    split.
    + eapply same_collaborators_trans; [exact Hs|exact He].
    + rewrite Hef. exact Hf.
Qed.

(** X1. [Retrieve] returns an error exactly when [loadProfile] does, and it
    is that error.  The call then ends at line 99: the value carries the
    provider's name only, the provider and the world are as before, so the
    cache was not read (a nil cache does no harm here) and nothing was
    asked. *)
Theorem X1_Retrieve_error_is_the_error_of_loadProfile p w e :
  (forall v p' w',
      Retrieve p w = Done (v, Some e, p') w' ->
      (exists o, loadProfile p w = Done (o, Some e) w)
      /\ v = Value_tag_only /\ p' = p /\ w' = w)
  /\ (forall o,
        loadProfile p w = Done (o, Some e) w ->
        Retrieve p w = Done (Value_tag_only, Some e, p) w).
Proof.
  split.
  - intros v p' w' HR.
    destruct (Retrieve_error_inv _ _ _ _ _ _ HR) as [o Hl].
    rewrite (Retrieve_load_error _ _ _ _ Hl) in HR.
    injection HR as <- <- <-. eauto.
  - intros o Hl. exact (Retrieve_load_error _ _ _ _ Hl).
Qed.

(** X2. [loadProfile] returns a profile exactly when the home directory is
    known, the config file loads, it has the section of the profile, and the
    section has the keys role_arn and source_profile.  The profile then has
    the provider's profile name and the values of those two keys; each of
    the three optional fields is nil exactly when its key is absent, and a
    key that is present with an empty value gives a pointer to the empty
    string. *)
Theorem X2_loadProfile_returns_a_profile_iff p w prof :
  loadProfile p w = Done (Some prof, None) w
  <-> exists home config section role source,
        homedir_Dir w = (home, None)
        /\ ini_Load w (home +:+ "/.aws/config") = (Some config, None)
        /\ config !! ("profile " +:+ ProfileName p) = Some section
        /\ section !! "role_arn" = Some role
        /\ section !! "source_profile" = Some source
        /\ prof = {| Name := ProfileName p;
                     RoleARN := role;
                     SourceProfileName := source;
                     RoleSessionName := section !! "role_session_name";
                     MFASerial := section !! "mfa_serial";
                     ExternalID := section !! "external_id" |}.
Proof.
  unfold loadProfile. split.
  - destruct (homedir_Dir w) as [home [e|]]; [discriminate|].
    destruct (ini_Load w _) as [[config|] [e|]] eqn:Hi; try discriminate.
    destruct (config !! _) as [section|] eqn:Hs; [|discriminate].
    destruct (section !! "role_arn") as [role|] eqn:Hr; [|discriminate].
    destruct (section !! "source_profile") as [source|] eqn:Hsrc; [|discriminate].
    intros [= <-]. exists home, config, section, role, source. auto 10.
  - intros (home & config & section & role & source & -> & -> & -> & -> & -> & ->).
    reflexivity.
Qed.

(** X3. For a profile with an MFA serial and a token source that answers,
    [retrieve] calls the token source once, before STS, and asks STS once,
    with the serial of the profile and the token as it was given. *)
Theorem X3_MFA_token_is_asked_once_and_passed_on p prof w serial get token :
  MFASerial prof = Some serial ->
  GetToken p = Some get ->
  get (session_world prof w) = (token, None) ->
  asked w (retrieve p prof w)
  = [EvGetToken;
     EvAssumeRole (SourceProfileName prof) (mfa_request p prof w serial token)]
  /\ SerialNumber (mfa_request p prof w serial token) = Some serial
  /\ TokenCode (mfa_request p prof w serial token) = Some token.
Proof.
  intros Hm Hg Ht. rewrite retrieve_asked, Hm, Hg, Ht. repeat split.
Qed.

(** X4. When the token source fails, [retrieve] returns its error with the
    empty credentials under the provider's name and the clock reading of
    that moment, and STS is not asked. *)
Theorem X4_retrieve_stops_at_a_token_error p prof w serial get token e :
  MFASerial prof = Some serial ->
  GetToken p = Some get ->
  get (session_world prof w) = (token, Some e) ->
  (exists t p' w',
      retrieve p prof w = Done (Value_tag_only, t, Some e, p') w'
      /\ time_Now (log EvGetToken (session_world prof w)) = Done t w')
  /\ asked w (retrieve p prof w) = [EvGetToken].
Proof.
  intros Hm Hg Ht. split.
  - rewrite (retrieve_mfa_error _ _ _ _ _ _ _ Hm Hg Ht).
    eexists _, _, _. split; reflexivity.
  - rewrite retrieve_asked, Hm, Hg, Ht. reflexivity.
Qed.

Lemma retrieve_provider p prof w v t err p' w' :
  retrieve p prof w = Done (v, t, err, p') w' ->
  p' = with_Duration (effective_Duration p w) p.
Proof.
  intros Hr. destruct err as [e|].
  - apply retrieve_error_inv in Hr as (_ & _ & -> & _). reflexivity.
  - apply retrieve_success_inv in Hr as (? & ? & ? & ? & ? & _ & _ & _ & _ & ->).
    reflexivity.
Qed.

(** X5. Whatever [retrieve] returns, the provider it leaves is the one it
    was given with one change at most: a [Duration] of zero has become
    [DefaultDuration].  The files and the collaborators are untouched. *)
Theorem X5_retrieve_only_defaults_the_Duration p prof w v t err p' w' :
  retrieve p prof w = Done (v, t, err, p') w' ->
  p' = with_Duration (if decide (Duration p = 0%Z) then DefaultDuration w
                      else Duration p) p
  /\ (Duration p <> 0%Z -> p' = with_Duration (Duration p) p)
  /\ files w' = files w
  /\ same_collaborators w w'.
Proof.
  intros Hr.
  pose proof (retrieve_provider _ _ _ _ _ _ _ _ Hr) as Hp.
  destruct (retrieve_world p prof w) as [Hs Hf]. rewrite Hr in Hs, Hf. simpl in Hs, Hf.
  split; [exact Hp|]. split; [|split; assumption].
  intros Hd. rewrite Hp. unfold effective_Duration.
  destruct (decide (Duration p = 0%Z)); [contradiction|reflexivity].
Qed.

(** X6. Every request [retrieve] sends to STS is built from the profile:
    it is signed for the source profile, names the role and the external
    id of the profile, carries the MFA serial of the profile (nil when
    there is none), asks for the provider's duration in whole seconds, and
    uses the configured session name as it is, or else the decimal count of
    nanoseconds of the clock reading taken for it. *)
Theorem X6_request_is_built_from_the_profile p prof w source params :
  EvAssumeRole source params ∈ asked w (retrieve p prof w) ->
  source = SourceProfileName prof
  /\ RoleArn params = Some (RoleARN prof)
  /\ ExternalId params = ExternalID prof
  /\ SerialNumber params = MFASerial prof
  /\ (MFASerial prof = None -> TokenCode params = None)
  /\ DurationSeconds params
     = Some (wrap64 ((if decide (Duration p = 0%Z) then DefaultDuration w
                      else Duration p) ÷ time_Second))
  /\ in_RoleSessionName params
     = match RoleSessionName prof with
       | Some name => Some name
       | None => Some (Sprintf_d (wrap64 (clock w (ticks w))))
       end.
Proof.
  rewrite retrieve_asked.
  destruct (MFASerial prof) as [serial|] eqn:Hm.
  - destruct (GetToken p) as [get|]; [|intros []%elem_of_nil].
    destruct (get (session_world prof w)) as [token [e|]].
    + intros [=]%list_elem_of_singleton.
    + intros [[=]|[= -> ->]%list_elem_of_singleton]%elem_of_cons.
      repeat split. intros [=].
  - intros [= -> ->]%list_elem_of_singleton. repeat split.
Qed.

Lemma store_and_return_inv (r : creds) p w v e p' w' :
  store_and_return r p w = Done (v, e, p') w' ->
  v = creds_Credentials r /\ e = None
  /\ (p' = p \/ exists c, p' = with_Cache (Some c) p).
Proof.
  unfold store_and_return, provider_Cache_Set, bind.
  destruct (json_Marshal_creds r) as [js [e0|]].
  - intros [= <- <- <- <-]. auto.
  - destruct (p_Cache p) as [c|]; [|discriminate].
    destruct (Cache_Set "credentials" js c w) as [c' w0|]; [|discriminate].
    intros [= <- <- <- <-]. eauto.
Qed.

(** X7. A call of [Retrieve] that returns leaves the provider's profile
    name, early-refresh window and embedded expiry as they were: in
    particular it never sets the expiry that [credentials.Expiry] keeps.  A
    token source the caller supplied stays in place, and a duration other
    than zero is kept. *)
Theorem X7_Retrieve_keeps_the_configuration p w v e p' w' :
  Retrieve p w = Done (v, e, p') w' ->
  ProfileName p' = ProfileName p
  /\ ExpiryWindow p' = ExpiryWindow p
  /\ Expiry p' = Expiry p
  /\ (forall get, GetToken p = Some get -> GetToken p' = Some get)
  /\ (Duration p <> 0%Z -> Duration p' = Duration p).
Proof.
  intros HR.
  destruct (loadProfile p w) as [[o [e0|]] w0|] eqn:Hl.
  - pose proof (loadProfile_world _ _ _ _ Hl) as ->.
    rewrite (Retrieve_load_error _ _ _ _ Hl) in HR. injection HR as <- <- <- <-.
    auto.
  - pose proof (loadProfile_world _ _ _ _ Hl) as ->.
    destruct (loadProfile_nil_error _ _ _ _ Hl) as (prof & -> & _).
    destruct (loadCachedCreds p w) as [[cached p1] w1|msg w1] eqn:Hc.
    2: { unfold Retrieve, bind in HR. rewrite Hl, Hc in HR. discriminate. }
    pose proof Hc as Hc'.
    apply loadCachedCreds_inv in Hc' as (c & c1 & text & found & _ & _ & -> & _).
    destruct (usable cached prof w1) eqn:Hu.
    + rewrite (Retrieve_usable _ _ _ _ _ _ Hl Hc Hu) in HR.
      injection HR as <- <- <- <-. auto.
    + rewrite (Retrieve_not_usable _ _ _ _ _ _ Hl Hc Hu), live_refresh_eq in HR.
      destruct (retrieve _ prof _) as [[[[v1 t1] e1] p3] w3|] eqn:Hr; [|discriminate].
      apply retrieve_provider in Hr. subst p3.
      apply store_and_return_inv in HR as (_ & _ & Hp').
      assert (Hfields :
        forall q, q = with_Duration
                        (effective_Duration
                           (with_default_GetToken (with_Cache (Some c1) p))
                           (after_test cached prof w1))
                        (with_default_GetToken (with_Cache (Some c1) p)) ->
          ProfileName q = ProfileName p /\ ExpiryWindow q = ExpiryWindow p
          /\ Expiry q = Expiry p
          /\ (forall get, GetToken p = Some get -> GetToken q = Some get)
          /\ (Duration p <> 0%Z -> Duration q = Duration p)).
      { intros q ->. unfold with_default_GetToken, effective_Duration. simpl.
        assert (Hd : Duration p <> 0%Z ->
                     (if decide (Duration p = 0%Z)
                      then DefaultDuration (after_test cached prof w1)
                      else Duration p) = Duration p).
        { intros Hd. destruct (decide (Duration p = 0%Z)); congruence. }
        destruct (GetToken p) as [g|] eqn:Hg; simpl; rewrite ?Hg;
          repeat split; try assumption; intros get Heq;
          first [exact Heq|discriminate]. }
      destruct Hp' as [->|[c4 ->]].
      * apply Hfields. reflexivity.
      * destruct (Hfields _ eq_refl) as (H1 & H2 & H3 & H4 & H5). auto.
  - unfold Retrieve, bind in HR. rewrite Hl in HR. discriminate.
Qed.

(** X8. The early-refresh window makes no difference to a call: with any
    window, [Retrieve] returns what it returns without one and leaves the
    same world. *)
Theorem X8_ExpiryWindow_makes_no_difference x p w :
  returned (Retrieve (with_ExpiryWindow x p) w) = returned (Retrieve p w)
  /\ world_of (Retrieve (with_ExpiryWindow x p) w) = world_of (Retrieve p w).
Proof.
  rewrite Retrieve_ExpiryWindow.
  destruct (Retrieve p w) as [[[v e] p'] w'|]; split; reflexivity.
Qed.

(** X9. The zero record, which is what an absent or unreadable cache entry
    gives, is never handed out once the clock is past year one: its expiry
    is the zero time.  [Retrieve] goes on to the live refresh, which asks
    for a token or asks STS. *)
Theorem X9_zero_record_leads_to_a_refresh p w prof p1 w1 :
  loadProfile p w = Done (Some prof, None) w ->
  loadCachedCreds p w = Done (creds_zero, p1) w1 ->
  (wall_ns time_zero < now_of w1)%Z ->
  Retrieve p w = live_refresh p1 prof (after_test creds_zero prof w1)
  /\ exists e es,
      events (world_of (retrieve (with_default_GetToken p1) prof
                                 (after_test creds_zero prof w1)))
      = events w1 ++ e :: es.
Proof.
  intros Hl Hc Hnow.
  assert (Hu : usable creds_zero prof w1 = false).
  { unfold usable. apply andb_false_iff. right.
    apply negb_false_iff, Z.ltb_lt. exact Hnow. }
  split; [exact (Retrieve_not_usable _ _ _ _ _ _ Hl Hc Hu)|].
  destruct (retrieve_asks (with_default_GetToken p1) prof
              (after_test creds_zero prof w1)) as (e & es & Hev).
  { right. apply GetToken_default. }
  exists e, es. rewrite Hev. unfold after_test.
  destruct (Match creds_zero prof); reflexivity.
Qed.

(** The exchange step panics when STS reports no error and its answer
    lacks the output, the credentials or one of their four members. *)
Lemma exchange_incomplete p source params w o :
  sts_AssumeRole w source params = (o, None) ->
  (forall ak sk st exp, o <> Some (sts_success ak sk st exp)) ->
  exchange p source params w = Panicked nil_deref (log (EvAssumeRole source params) w).
Proof.
  intros Hs Hno. unfold exchange, call_AssumeRole, bind. rewrite Hs.
  destruct o as [[[[[ak|] [sk|] [st|] [exp|]]|]]|]; try reflexivity.
  destruct (Hno ak sk st exp). reflexivity.
Qed.

(** X10. The code dereferences the output of [AssumeRole] and its four
    credential members without a check: whatever request [retrieve] makes,
    with or without an MFA token, when STS reports no error for it and
    leaves any of them out, [retrieve] panics.  The panic comes right after
    the request was made; before it only the token source was asked, when
    the profile names an MFA device. *)
Theorem X10_incomplete_answer_panics p prof w source params o :
  EvAssumeRole source params ∈ asked w (retrieve p prof w) ->
  sts_AssumeRole w source params = (o, None) ->
  (forall ak sk st exp, o <> Some (sts_success ak sk st exp)) ->
  exists w0,
    retrieve p prof w = Panicked nil_deref (log (EvAssumeRole source params) w0)
    /\ events w0 = events w ++ (if MFASerial prof is None then [] else [EvGetToken]).
Proof.
  rewrite retrieve_asked. intros Hin Hs Hno.
  destruct (MFASerial prof) as [serial|] eqn:Hm.
  - destruct (GetToken p) as [get|] eqn:Hg; [|apply elem_of_nil in Hin; destruct Hin].
    destruct (get (session_world prof w)) as [token [e|]] eqn:Ht.
    + apply list_elem_of_singleton in Hin. discriminate.
    + apply elem_of_cons in Hin as [[=]|[= -> ->]%list_elem_of_singleton].
      exists (log EvGetToken (session_world prof w)). split.
      * rewrite (retrieve_mfa_token _ _ _ _ _ _ Hm Hg Ht).
        apply (exchange_incomplete _ _ _ _ o); [|exact Hno].
        simpl. rewrite session_world_sts. exact Hs.
      * simpl. rewrite session_world_events. reflexivity.
  - apply list_elem_of_singleton in Hin. injection Hin as -> ->.
    exists (session_world prof w). split.
    + rewrite (retrieve_no_mfa _ _ _ Hm).
      apply (exchange_incomplete _ _ _ _ o); [|exact Hno].
      rewrite session_world_sts. exact Hs.
    + rewrite session_world_events, app_nil_r. reflexivity.
Qed.

(** With no MFA device, or with a token source in place, [retrieve]
    returns whenever the answers of STS are well formed. *)
Lemma retrieve_returns p prof w :
  MFASerial prof = None \/ (exists get, GetToken p = Some get) ->
  (forall source params, sts_well_formed (sts_AssumeRole w source params)) ->
  exists v t err p' w', retrieve p prof w = Done (v, t, err, p') w'.
Proof.
  intros Hcase Hsts.
  assert (Hex : forall q source params w0,
             sts_AssumeRole w0 = sts_AssumeRole w ->
             exists v t err p' w', exchange q source params w0 = Done (v, t, err, p') w').
  { intros q source params w0 Hw0.
    destruct (Hsts source params) as [[e He]|(ak & sk & st & exp & Hok)].
    - destruct (sts_AssumeRole w source params) as [o e0] eqn:Hs. simpl in He. subst e0.
      rewrite <- Hw0 in Hs. rewrite (exchange_error _ _ _ _ _ _ Hs). eauto 10.
    - rewrite <- Hw0 in Hok. rewrite (exchange_success _ _ _ _ _ _ _ _ Hok). eauto 10. }
  destruct (MFASerial prof) as [serial|] eqn:Hm.
  - destruct Hcase as [|[get Hg]]; [discriminate|].
    destruct (get (session_world prof w)) as [token [e|]] eqn:Ht.
    + rewrite (retrieve_mfa_error _ _ _ _ _ _ _ Hm Hg Ht). eauto 10.
    + rewrite (retrieve_mfa_token _ _ _ _ _ _ Hm Hg Ht). apply Hex.
      simpl. apply session_world_sts.
  - rewrite (retrieve_no_mfa _ _ _ Hm). apply Hex. apply session_world_sts.
Qed.

Lemma after_test_same (cached : creds) prof w :
  same_collaborators w (after_test cached prof w)
  /\ files (after_test cached prof w) = files w
  /\ events (after_test cached prof w) = events w.
Proof. unfold after_test. destruct (Match cached prof); repeat split. Qed.

End ProviderFacts.

(** * More of the file cache *)

Section FileCacheMore.
Context `{J : EncodingJSON}.
Implicit Types (f : FileCache) (w : World) (p : AssumeRoleProfileProvider FileCache).

(** What [Set] does, once it returns: the entry goes into the map that was
    loaded or that [readConf] has just read, and the whole map goes to the
    file when the file can be opened. *)
Lemma FileCache_Set_inv f key value w f' w' :
  FileCache_Set key value f w = Done f' w' ->
  exists m,
    f' = mkFileCache (Some (<[key := value]> m)) (filename f)
    /\ (data f = Some m
        \/ (data f = None
            /\ FileCache_readConf f w = Done (mkFileCache (Some m) (filename f)) w))
    /\ w' = match os_OpenFile_trunc (filename f) w with
            | Some _ =>
                with_files (<[filename f := mkFile (json_Encode_map (data f')) true true]>
                              (files w)) w
            | None => w
            end.
Proof.
  unfold FileCache_Set, bind.
  assert (Hwrite : forall m,
    (_ <- FileCache_writeConf
            (mkFileCache (Some (<[key := value]> m)) (filename f)) ;;
     ret (mkFileCache (Some (<[key := value]> m)) (filename f)))%go w
    = Done (mkFileCache (Some (<[key := value]> m)) (filename f))
        (match os_OpenFile_trunc (filename f) w with
         | Some _ =>
             with_files (<[filename f := mkFile
                             (json_Encode_map (Some (<[key := value]> m))) true true]>
                           (files w)) w
         | None => w
         end)).
  { intros m. unfold bind, FileCache_writeConf, os_OpenFile_trunc, file_write. simpl.
    destruct (files w !! filename f) as [n|].
    - destruct (readable n && writable n); [|reflexivity].
      simpl. unfold with_files. simpl. rewrite insert_insert_eq. reflexivity.
    - destruct (creatable w (filename f)); [|reflexivity].
      simpl. unfold with_files. simpl. rewrite insert_insert_eq. reflexivity. }
  destruct (data f) as [m|] eqn:Hd.
  - simpl. rewrite Hd. unfold bind in Hwrite. rewrite Hwrite.
    intros [= <- <-]. exists m. auto.
  - destruct (FileCache_readConf_world f w) as [d Hread].
    rewrite (Hread w eq_refl). simpl. destruct d as [m|]; [|discriminate].
    unfold bind in Hwrite. rewrite Hwrite.
    intros [= <- <-]. exists m. split; [reflexivity|]. split; [|reflexivity].
    right. split; reflexivity.
Qed.

(** X11. What [Set] has stored, [Get] finds: after [Set(key, value)]
    returns, [Get(key)] on the same cache answers [value] and found, in any
    world and whatever the key held before; the read leaves the cache and
    the world as they are. *)
Theorem X11_Get_finds_what_Set_stored f key value w f' w' :
  FileCache_Set key value f w = Done f' w' ->
  forall w'', FileCache_Get key f' w'' = Done (value, true, f') w''.
Proof.
  intros (m & -> & _ & _)%FileCache_Set_inv w''.
  rewrite (FileCache_Get_loaded _ (<[key := value]> m)) by reflexivity.
  rewrite lookup_insert_eq. reflexivity.
Qed.

(** X12. [Set] changes one entry only: for any other key, [Get] after the
    [Set] answers what [Get] would have answered before it. *)
Theorem X12_Set_leaves_the_other_keys f key value w f' w' key' :
  FileCache_Set key value f w = Done f' w' ->
  key' <> key ->
  forall w'', answer (FileCache_Get key' f' w'') = answer (FileCache_Get key' f w).
Proof.
  intros (m & -> & Hm & _)%FileCache_Set_inv Hne w''.
  rewrite (FileCache_Get_loaded _ (<[key := value]> m)) by reflexivity.
  rewrite lookup_insert_ne by congruence.
  destruct Hm as [Hd|[Hd Hread]].
  - rewrite (FileCache_Get_loaded _ _ _ _ Hd). destruct (m !! key'); reflexivity.
  - unfold FileCache_Get, bind. rewrite Hd, Hread. simpl.
    destruct (m !! key'); reflexivity.
Qed.


(** X14. What one cache has written, a fresh cache on the same file reads
    back, provided the decoder reads back what the encoder wrote: the entry
    stored by [Set] is found by the first [Get] of a [FileCache] that starts
    with a nil map. *)
Theorem X14_a_fresh_cache_reads_back_the_file f key value w f' w' e :
  FileCache_Set key value f w = Done f' w' ->
  os_OpenFile_trunc (filename f) w <> None ->
  json_Decode_map (json_Encode_map (data f')) (Some ∅) = (data f', e) ->
  FileCache_Get key (mkFileCache None (filename f)) w' = Done (value, true, f') w'.
Proof.
  intros (m & -> & _ & ->)%FileCache_Set_inv Hopen Hround.
  destruct (os_OpenFile_trunc (filename f) w); [|contradiction].
  simpl in Hround.
  unfold FileCache_Get, FileCache_readConf, bind, os_Open. simpl.
  rewrite lookup_insert_eq. simpl. rewrite Hround. simpl.
  rewrite lookup_insert_eq. reflexivity.
Qed.

(** X15. [Set] panics in one case only: the map is nil and the file holds
    something the decoder turns into a nil map, so that line 45 assigns to
    an entry of a nil map.  In every other case [Set] returns. *)
Theorem X15_Set_panics_only_on_a_nil_map f key value w :
  (exists msg w', FileCache_Set key value f w = Panicked msg w')
  <-> data f = None
      /\ exists stream, os_Open (filename f) w = Some stream
                        /\ (json_Decode_map stream (Some ∅)).1 = None.
Proof.
  split.
  - intros (msg & w' & HS).
    destruct (data f) as [m|] eqn:Hd.
    + destruct (FileCache_Set_loaded f m key value w Hd) as [w0 HS'].
      rewrite HS' in HS. discriminate.
    + split; [reflexivity|].
      unfold FileCache_Set, FileCache_readConf, bind in HS. rewrite Hd in HS.
      simpl in HS.
      destruct (os_Open (filename f) w) as [stream|]; simpl in HS.
      * exists stream. split; [reflexivity|].
        destruct (json_Decode_map stream (Some ∅)) as [[m|] e]; simpl in *;
          [|reflexivity].
        unfold FileCache_writeConf in HS. simpl in HS.
        destruct (os_OpenFile_trunc (filename f) w); discriminate.
      * unfold FileCache_writeConf in HS. simpl in HS.
        destruct (os_OpenFile_trunc (filename f) w); discriminate.
  - intros (Hd & stream & Ho & Hnil).
    destruct (json_Decode_map stream (Some ∅)) as [d e] eqn:Hdec. simpl in Hnil.
    subst d. eexists _, _. exact (FileCache_Set_nil_map _ _ _ _ _ _ Hd Ho Hdec).
Qed.

(** X16. [Get] only reads: it always returns, in the world it was called
    in, with the empty string when nothing is found.  It keeps the file
    name, and the cache it leaves answers the same again in any world with
    the same files; once the map is loaded, in any world at all, so that
    later changes of the file are not seen. *)
Theorem X16_Get_only_reads f key w :
  exists value found f',
    FileCache_Get key f w = Done (value, found, f') w
    /\ filename f' = filename f
    /\ (found = false -> value = "")
    /\ (forall w', files w' = files w ->
                   FileCache_Get key f' w' = Done (value, found, f') w')
    /\ (data f' <> None ->
        forall w', FileCache_Get key f' w' = Done (value, found, f') w').
Proof.
  destruct (FileCache_Get_stable f key w) as ([[value found] f'] & Hg & Hagain).
  exists value, found, f'. split; [exact Hg|].
  assert (Hshape : filename f' = filename f /\ (found = false -> value = "")
                   /\ (forall m, data f' = Some m ->
                                 (value, found) = match m !! key with
                                                  | Some x => (x, true)
                                                  | None => ("", false)
                                                  end)).
  { destruct (data f) as [m|] eqn:Hd.
    - rewrite (FileCache_Get_loaded _ _ _ _ Hd) in Hg.
      destruct (m !! key) as [x|] eqn:Hk; injection Hg as <- <- <-;
        (split; [reflexivity|]); (split; [try discriminate; reflexivity|]);
        intros m0 Hm0; rewrite Hd in Hm0; injection Hm0 as <-; rewrite Hk; reflexivity.
    - destruct (FileCache_readConf_world f w) as [d Hread].
      unfold FileCache_Get, bind in Hg. rewrite Hd, (Hread w eq_refl) in Hg.
      simpl in Hg. destruct d as [m|]; simpl in Hg.
      + destruct (m !! key) as [x|] eqn:Hk; injection Hg as <- <- <-;
          (split; [reflexivity|]); (split; [try discriminate; reflexivity|]);
          intros m0 [= <-]; rewrite Hk; reflexivity.
      + injection Hg as <- <- <-. split; [reflexivity|]. split; [reflexivity|].
        intros m0 [=]. }
  destruct Hshape as (Hname & Hempty & Hloaded).
  split; [exact Hname|]. split; [exact Hempty|]. split; [exact Hagain|].
  intros Hd w'. destruct (data f') as [m|] eqn:Hm; [|contradiction].
  rewrite (FileCache_Get_loaded _ _ _ _ Hm).
  specialize (Hloaded m eq_refl). destruct (m !! key); injection Hloaded as -> ->;
    reflexivity.
Qed.

(** With the file cache, reading the cached record leaves the world as it
    is; the cache it leaves has the file name of the one it was given. *)
Lemma FileCache_loadCachedCreds_inv p w cached p1 w1 :
  loadCachedCreds p w = Done (cached, p1) w1 ->
  w1 = w
  /\ exists f f1,
      p_Cache p = Some f /\ p1 = with_Cache (Some f1) p
      /\ filename f1 = filename f
      /\ (data f1 = None ->
          data f = None
          /\ exists stream, os_Open (filename f) w = Some stream
                            /\ (json_Decode_map stream (Some ∅)).1 = None).
Proof.
  intros Hc.
  apply loadCachedCreds_inv in Hc as (f & f1 & text & found & Hp & Hg & -> & _).
  simpl in Hg. unfold FileCache_Get, bind in Hg.
  destruct (data f) as [m|] eqn:Hd.
  - simpl in Hg. rewrite Hd in Hg. simpl in Hg.
    assert (f1 = f /\ w1 = w) as [-> ->].
    { destruct (m !! "credentials"); injection Hg as <- <- <- <-; auto. }
    split; [reflexivity|]. exists f, f.
    split; [assumption|]. split; [reflexivity|]. split; [reflexivity|].
    intros Hn. rewrite Hd in Hn. discriminate.
  - unfold FileCache_readConf in Hg. simpl in Hg.
    destruct (os_Open (filename f) w) as [stream|] eqn:Ho; simpl in Hg.
    + destruct (json_Decode_map stream (Some ∅)) as [d e] eqn:Hdec. simpl in Hg.
      assert (f1 = mkFileCache d (filename f) /\ w1 = w) as [-> ->].
      { destruct (d ≫= (.!! "credentials")); injection Hg as <- <- <- <-; auto. }
      split; [reflexivity|]. exists f, (mkFileCache d (filename f)).
      split; [assumption|]. split; [reflexivity|]. split; [reflexivity|].
      simpl. intros ->. split; [exact Hd|].
      exists stream. rewrite Hdec. auto.
    + assert (f1 = mkFileCache (Some ∅) (filename f) /\ w1 = w) as [-> ->].
      { injection Hg as <- <- <- <-. auto. }
      split; [reflexivity|]. exists f, (mkFileCache (Some ∅) (filename f)).
      split; [assumption|]. split; [reflexivity|]. split; [reflexivity|].
      discriminate.
Qed.

(** X17. With the file cache, a refresh that succeeded is served from the
    cache by the next call: when the decoder reads the stored text back to
    a record with the same profile, credentials and expiry instant, and the
    clock has not passed that expiry, the next [Retrieve] on the provider
    returns the credentials of the refresh, with a nil error, and asks
    neither the token source nor STS.  The record keeps the profile as it
    was loaded, so a session name made up for the request does not stand in
    the way. *)
Theorem X17_a_refresh_is_served_from_the_cache_next
    p w prof cached p1 w1 v t p3 w3 js back e2 v' e' p4 w4 :
  loadProfile p w = Done (Some prof, None) w ->
  loadCachedCreds p w = Done (cached, p1) w1 ->
  usable cached prof w1 = false ->
  retrieve (with_default_GetToken p1) prof (after_test cached prof w1)
  = Done (v, t, None, p3) w3 ->
  Retrieve p w = Done (v', e', p4) w4 ->
  json_Marshal_creds (mkCreds v t prof) = (js, None) ->
  json_Unmarshal_creds js creds_zero = (back, e2) ->
  creds_Profile back = prof ->
  creds_Credentials back = v ->
  wall_ns (creds_Expiration back) = wall_ns t ->
  (now_of w4 <= wall_ns t)%Z ->
  v' = v /\ e' = None
  /\ Retrieve p4 w4 = Done (v, None, p4) (tick w4)
  /\ asked w4 (Retrieve p4 w4) = [].
Proof.
  intros Hl Hc Hu Hr HR Hmar Hun Hprof Hval Hexp Hnow.
  rewrite (Retrieve_refresh _ _ _ _ _ _ _ _ _ _ _ Hl Hc Hu Hr) in HR.
  pose proof (retrieve_result_Cache _ _ _ _ _ _ _ _ Hr) as Hc3.
  rewrite with_default_GetToken_Cache in Hc3.
  pose proof (retrieve_provider _ _ _ _ _ _ _ _ Hr) as Hp3.
  destruct (retrieve_world (with_default_GetToken p1) prof
              (after_test cached prof w1)) as [Hs3 _].
  rewrite Hr in Hs3. simpl in Hs3.
  destruct (after_test_same cached prof w1) as (Hs2 & _ & _).
  apply FileCache_loadCachedCreds_inv in Hc as (-> & f & f1 & Hpf & -> & _ & _).
  simpl in Hc3.
  rewrite (store_and_return_eq _ _ _ _ Hc3), Hmar in HR. simpl in HR.
  destruct (FileCache_Set "credentials" js f1 w3) as [f4 w4'|] eqn:HS; [|discriminate].
  injection HR as <- <- <- <-.
  split; [reflexivity|]. split; [reflexivity|].
  pose proof HS as HS'.
  apply FileCache_Set_inv in HS' as (m & Hf4 & _ & Hw4).
  assert (Hs4 : same_collaborators w3 w4').
  { rewrite Hw4. destruct (os_OpenFile_trunc (filename f1) w3); repeat split. }
  assert (Hsame : same_collaborators w w4').
  { eapply same_collaborators_trans; [|exact Hs4].
    eapply same_collaborators_trans; [exact Hs2|exact Hs3]. }
  destruct Hsame as (_ & _ & Hhome & Hini & _).
  assert (Hl4 : loadProfile (with_Cache (Some f4) p3) w4'
                = Done (Some (creds_Profile back), None) w4').
  { rewrite Hprof. eapply loadProfile_ext; [| | |exact Hl]; try assumption.
    rewrite Hp3. unfold with_default_GetToken. simpl.
    destruct (GetToken p); reflexivity. }
  assert (Hc4 : loadCachedCreds (with_Cache (Some f4) p3) w4'
                = Done (back, with_Cache (Some f4) p3) w4').
  { unfold loadCachedCreds, provider_Cache_Get, bind. simpl.
    rewrite Hf4, (FileCache_Get_loaded _ (<["credentials" := js]> m)) by reflexivity.
    rewrite lookup_insert_eq. simpl. rewrite Hun. reflexivity. }
  assert (Hm4 : Match back (creds_Profile back) = true) by (apply Match_spec; reflexivity).
  assert (He4 : (now_of w4' <= wall_ns (creds_Expiration back))%Z) by lia.
  pose proof (Retrieve_hit _ _ _ _ _ _ Hl4 Hc4 Hm4 He4) as Hhit.
  rewrite Hhit, Hval. split; [reflexivity|]. apply asked_tick.
Qed.

(** X18. With a file cache, [Retrieve] returns, with a nil error, whenever
    the profile loads, STS answers with an error or with a full set of
    credentials, and the cache file does not decode to a nil map. *)
Theorem X18_Retrieve_returns_with_a_file_cache p f w prof :
  p_Cache p = Some f ->
  loadProfile p w = Done (Some prof, None) w ->
  (forall source params, sts_well_formed (sts_AssumeRole w source params)) ->
  (data f = None ->
   forall stream, os_Open (filename f) w = Some stream ->
                  (json_Decode_map stream (Some ∅)).1 <> None) ->
  exists v p' w', Retrieve p w = Done (v, None, p') w'.
Proof.
  intros Hpf Hl Hsts Hfile.
  destruct (FileCache_Get_stable f "credentials" w) as ([[text found] f1] & Hg & _).
  assert (Hc : exists cached,
             loadCachedCreds p w = Done (cached, with_Cache (Some f1) p) w).
  { unfold loadCachedCreds, provider_Cache_Get, bind. rewrite Hpf. simpl.
    rewrite Hg. simpl. destruct found; eauto. }
  destruct Hc as [cached Hc].
  destruct (usable cached prof w) eqn:Hu.
  { rewrite (Retrieve_usable _ _ _ _ _ _ Hl Hc Hu). eauto. }
  destruct (after_test_same cached prof w) as ((_&_&_&_&_&_&Hsts2&_) & _ & _).
  destruct (retrieve_returns (with_default_GetToken (with_Cache (Some f1) p)) prof
              (after_test cached prof w)) as (v & t & err & p3 & w3 & Hr).
  { right. apply GetToken_default. }
  { intros source params. rewrite Hsts2. apply Hsts. }
  rewrite (Retrieve_refresh _ _ _ _ _ _ _ _ _ _ _ Hl Hc Hu Hr).
  pose proof (retrieve_result_Cache _ _ _ _ _ _ _ _ Hr) as Hc3.
  rewrite with_default_GetToken_Cache in Hc3. simpl in Hc3.
  rewrite (store_and_return_eq _ _ _ _ Hc3).
  destruct (json_Marshal_creds _) as [js [e|]]; [eauto|].
  pose proof Hc as Hc'.
  apply FileCache_loadCachedCreds_inv in Hc' as (_ & f0 & f1' & Hpf0 & Hp1 & _ & Hnil).
  rewrite Hpf in Hpf0. injection Hpf0 as <-.
  assert (f1' = f1) as ->.
  { assert (Heq : p_Cache (with_Cache (Some f1) p) = p_Cache (with_Cache (Some f1') p))
      by (rewrite <- Hp1; reflexivity).
    simpl in Heq. congruence. }
  destruct (data f1) as [m|] eqn:Hd1.
  - destruct (FileCache_Set_loaded f1 m "credentials" js w3 Hd1) as [w4 HS].
    simpl. rewrite HS. eauto.
  - destruct (Hnil eq_refl) as (Hd & stream & Ho & Hdec).
    destruct (Hfile Hd stream Ho Hdec).
Qed.

End FileCacheMore.

(** * A cache file with text after its first value *)

Section TextAfterTheFirstValue.
#[local] Existing Instance Streams.json.


(** The same with the JSON value null before the text: the file contains
    invalid JSON, the decoder reads null and leaves a nil map, and [Set]
    panics after the refresh, as it does on a file that holds null alone. *)
Example null_before_garbage_panics_in_Set :
  let p := Example.provider "prod" 0 in
  let text := "null" +:+ Example.newline +:+ "{garbage" in
  let w := Example.machine (Some text) Example.sts_ok Example.token_ok in
  json_Valid text = false
  /\ returned (Retrieve p w) = None
  /\ asked w (Retrieve p w)
     = [EvAssumeRole "dev"
          (mkInput (Some 900%Z) (Some Example.role_X) (Some "1800000000000000000")
                   None None None)].
Proof. intros p text w. split; [|split]; vm_compute; reflexivity. Qed.

End TextAfterTheFirstValue.

(** * Runs on the concrete machine *)

Import Example.
#[local] Existing Instance Example.json.

(** C1. Profile secure names an MFA device, there is no cache file, and the
    terminal is closed, so the prompt fails with EOF.  [Retrieve] calls the
    token source once and does not ask STS, but it does not return the
    error: it returns the empty credentials with a nil error, and writes a
    record of them to the cache file. *)
Theorem C1_token_error_is_not_returned :
  let p := provider "secure" 0 in
  let w := machine None sts_ok token_closed in
  loadProfile p w = Done (Some prof_mfa, None) w
  /\ PromptTokenSource (tick w) = ("", Some (errors_New "EOF"))
  /\ returned (Retrieve p w) = Some (Value_tag_only, None)
  /\ asked w (Retrieve p w) = [EvGetToken]
  /\ cache_file_after (Retrieve p w)
     = Some (file_of (mkCreds Value_tag_only (mkTime (t0 + seconds 1) Local) prof_mfa)).
Proof.
  intros p w. split; [reflexivity|]. split; [reflexivity|].
  split; [vm_compute; reflexivity|]. split; vm_compute; reflexivity.
Qed.

(** C2. Profile prod has a cached record that expired a minute ago, and
    STS denies the request.  [Retrieve] asks STS once and does not return
    the error: it returns the empty credentials with a nil error, and
    overwrites the cache file with a record of them. *)
Theorem C2_exchange_error_is_not_returned :
  let p := provider "prod" 0 in
  let w := machine (Some (file_of rec_expired)) sts_denied token_ok in
  loadProfile p w = Done (Some prof_prod, None) w
  /\ (forall source params, sts_AssumeRole w source params = sts_denied)
  /\ returned (Retrieve p w) = Some (Value_tag_only, None)
  /\ asked w (Retrieve p w)
     = [EvAssumeRole "dev"
          (mkInput (Some 900%Z) (Some role_X) (Some "1800000001000000000")
                   None None None)]
  /\ cache_file_after (Retrieve p w)
     = Some (file_of (mkCreds Value_tag_only (mkTime (t0 + seconds 2) Local) prof_prod)).
Proof.
  intros p w. split; [reflexivity|]. split; [reflexivity|].
  split; [vm_compute; reflexivity|]. split; vm_compute; reflexivity.
Qed.

(** C3. The provider is set up with an early-refresh window of ten seconds
    and the cached record for its profile expires in five.  Expiry minus
    window is in the past, yet [Retrieve] returns the cached credentials
    and asks nothing: [IsExpired] compares the expiry alone with the clock. *)
Theorem C3_early_refresh_window_is_not_applied :
  let p := provider "prod" (seconds 10) in
  let w := machine (Some (file_of rec_5s)) sts_ok token_ok in
  ExpiryWindow p = seconds 10
  /\ loadProfile p w = Done (Some prof_prod, None) w
  /\ loadCachedCreds p w
     = Done (rec_5s, with_Cache (Some (mkFileCache (Some (cache_of rec_5s)) cache_path)) p) w
  /\ (wall_ns (creds_Expiration rec_5s) - ExpiryWindow p < now_of w)%Z
  /\ returned (Retrieve p w) = Some (creds_Credentials rec_5s, None)
  /\ asked w (Retrieve p w) = [].
Proof.
  intros p w. split; [reflexivity|]. split; [reflexivity|].
  split; [reflexivity|]. split; [vm_compute; reflexivity|].
  split; vm_compute; reflexivity.
Qed.

(** The comparison of [IsExpired] is [Before]: a record whose expiry is the
    very clock reading of the call is still handed out. *)
Example expiry_equal_to_now_is_a_hit :
  let p := provider "prod" 0 in
  let w := machine (Some (file_of rec_last_instant)) sts_ok token_ok in
  wall_ns (creds_Expiration rec_last_instant) = now_of w
  /\ returned (Retrieve p w) = Some (key_1, None)
  /\ asked w (Retrieve p w) = [].
Proof.
  intros p w. split; [reflexivity|]. split; vm_compute; reflexivity.
Qed.

(** C8. The cache file holds the JSON value null, profile prod loads and
    STS grants the role.  [readConf] makes a map and the decoder sets it
    back to nil: [Get] finds nothing in it, the record of the file cache is
    the zero record, and the live refresh is made and succeeds.
    [json.Marshal] accepts the new record, and [Set] reads the file once
    more, is left with a nil map again and panics at line 45 of cache.go.
    [Retrieve] panics with it: the new credentials are not returned, and
    the cache file holds what it held. *)
Theorem C8_refresh_panics_on_a_null_cache_file :
  let p := provider "prod" 0 in
  let w := machine (Some ("null" +:+ newline)) sts_ok token_ok in
  let p1 := with_Cache (Some (mkFileCache None cache_path)) p in
  let p3 := with_default_GetToken p1 in
  let t := mkTime (t0 + seconds 900) UTC in
  let w3 := log (EvAssumeRole "dev" (base_request p3 prof_prod w)) (tick w) in
  loadProfile p w = Done (Some prof_prod, None) w
  /\ FileCache_Get "credentials" (mkFileCache None cache_path) w
     = Done ("", false, mkFileCache None cache_path) w
  /\ loadCachedCreds p w = Done (creds_zero, p1) w
  /\ Match creds_zero prof_prod = false
  /\ retrieve p3 prof_prod w = Done (key_2, t, None, p3) w3
  /\ (json_Marshal_creds (mkCreds key_2 t prof_prod)).2 = None
  /\ FileCache_Set "credentials" (json_Marshal_creds (mkCreds key_2 t prof_prod)).1
       (mkFileCache None cache_path) w3
     = Panicked "assignment to entry in nil map" w3
  /\ Retrieve p w = Panicked "assignment to entry in nil map" w3
  /\ returned (Retrieve p w) = None
  /\ asked w (Retrieve p w)
     = [EvAssumeRole "dev"
          (mkInput (Some 900%Z) (Some role_X) (Some "1800000000000000000")
                   None None None)]
  /\ cache_file_after (Retrieve p w) = Some ("null" +:+ newline).
Proof.
  intros p w p1 p3 t w3.
  split; [reflexivity|]. split; [reflexivity|]. split; [reflexivity|].
  split; [reflexivity|]. split; [reflexivity|]. split; [reflexivity|].
  split; [reflexivity|]. split; [reflexivity|].
  split; [vm_compute; reflexivity|]. split; vm_compute; reflexivity.
Qed.

(** C10. The same cache file, and STS denies the request.  The live
    refresh returns the error of STS with the empty credentials and the
    clock reading of that moment, [json.Marshal] accepts the record made
    of them, and [Set] panics as in C8: [Retrieve] panics, returns nothing
    and stores nothing. *)
Theorem C10_failed_refresh_panics_on_a_null_cache_file :
  let p := provider "prod" 0 in
  let w := machine (Some ("null" +:+ newline)) sts_denied token_ok in
  let p1 := with_Cache (Some (mkFileCache None cache_path)) p in
  let p3 := with_default_GetToken p1 in
  let t := mkTime (t0 + seconds 1) Local in
  let e := errors_New "AccessDenied: not authorized to perform sts:AssumeRole" in
  let w3 := tick (log (EvAssumeRole "dev" (base_request p3 prof_prod w)) (tick w)) in
  loadProfile p w = Done (Some prof_prod, None) w
  /\ loadCachedCreds p w = Done (creds_zero, p1) w
  /\ Match creds_zero prof_prod = false
  /\ retrieve p3 prof_prod w = Done (Value_tag_only, t, Some e, p3) w3
  /\ (json_Marshal_creds (mkCreds Value_tag_only t prof_prod)).2 = None
  /\ FileCache_Set "credentials"
       (json_Marshal_creds (mkCreds Value_tag_only t prof_prod)).1
       (mkFileCache None cache_path) w3
     = Panicked "assignment to entry in nil map" w3
  /\ Retrieve p w = Panicked "assignment to entry in nil map" w3
  /\ returned (Retrieve p w) = None
  /\ asked w (Retrieve p w)
     = [EvAssumeRole "dev"
          (mkInput (Some 900%Z) (Some role_X) (Some "1800000000000000000")
                   None None None)]
  /\ cache_file_after (Retrieve p w) = Some ("null" +:+ newline).
Proof.
  intros p w p1 p3 t e w3.
  split; [reflexivity|]. split; [reflexivity|]. split; [reflexivity|].
  split; [reflexivity|]. split; [reflexivity|]. split; [reflexivity|].
  split; [reflexivity|].
  split; [vm_compute; reflexivity|]. split; vm_compute; reflexivity.
Qed.

(** C6. [NewCredentials] with no option leaves the [Cache] field nil, and
    nothing later fills it in.  On a machine where profile prod loads,
    [Retrieve] panics at its first use of the cache. *)
Theorem C6_no_cache_option_panics :
  let w := machine None sts_ok token_ok in
  exists p : AssumeRoleProfileProvider FileCache,
    NewCredentials "prod" [] w = Done p w
    /\ p_Cache p = None
    /\ loadProfile p w = Done (Some prof_prod, None) w
    /\ Retrieve p w = Panicked nil_deref w.
Proof.
  intros w. eexists. split; [reflexivity|]. split; [reflexivity|].
  split; reflexivity.
Qed.

(** ** The general statements at work on the machine *)

(** C4 on the machine: the cache file holds a record for profile prod that
    is good for another hour; STS and the terminal would both fail. *)
Lemma C4_cache_hit_witness :
  let p := provider "prod" 0 in
  let w := machine (Some (file_of rec_hour)) sts_denied token_closed in
  let p1 := with_Cache (Some (mkFileCache (Some (cache_of rec_hour)) cache_path)) p in
  (loadProfile p w = Done (Some prof_prod, None) w
   /\ loadCachedCreds p w = Done (rec_hour, p1) w
   /\ creds_Profile rec_hour = prof_prod
   /\ IsExpired rec_hour w = Done false (tick w))
  /\ Retrieve p w = Done (key_1, None, p1) (tick w)
  /\ asked w (Retrieve p w) = []
  /\ Retrieve p1 (tick w) = Done (key_1, None, p1) (tick (tick w))
  /\ asked (tick w) (Retrieve p1 (tick w)) = [].
Proof.
  intros p w p1.
  assert (H1 : loadProfile p w = Done (Some prof_prod, None) w) by reflexivity.
  assert (H2 : loadCachedCreds p w = Done (rec_hour, p1) w) by reflexivity.
  assert (H3 : creds_Profile rec_hour = prof_prod) by reflexivity.
  assert (H4 : IsExpired rec_hour w = Done false (tick w)) by reflexivity.
  split; [auto|].
  destruct (C4_cache_hit_returns_cached p w prof_prod rec_hour p1 w H1 H2 H3 H4)
    as (Hfirst & Hasked & Hnext).
  split; [exact Hfirst|]. split; [exact Hasked|].
  apply (Hnext p1 (tick w)); reflexivity.
Defined.

(** C5 on the machine: the cached record was made before profile prod was
    given an external id. *)
Lemma C5_field_difference_witness :
  let p := provider "prod" 0 in
  let w := machine_on config_external (Some (file_of rec_hour)) sts_ok token_ok in
  let p1 := with_Cache (Some (mkFileCache (Some (cache_of rec_hour)) cache_path)) p in
  (creds_Profile rec_hour ≠ prof_prod_external
   /\ loadProfile p w = Done (Some prof_prod_external, None) w
   /\ loadCachedCreds p w = Done (rec_hour, p1) w)
  /\ Match rec_hour prof_prod_external = false
  /\ Retrieve p w = live_refresh p1 prof_prod_external w.
Proof.
  intros p w p1.
  assert (H1 : creds_Profile rec_hour ≠ prof_prod_external) by discriminate.
  assert (H2 : loadProfile p w = Done (Some prof_prod_external, None) w) by reflexivity.
  assert (H3 : loadCachedCreds p w = Done (rec_hour, p1) w) by reflexivity.
  split; [auto|].
  destruct (C5_any_field_difference_is_a_miss (C:=FileCache) rec_hour prof_prod_external)
    as (_ & Hmiss).
  destruct (Hmiss H1) as (Hm & _ & Hrefresh).
  split; [exact Hm|]. exact (Hrefresh p w p1 w H2 H3).
Defined.

(** C7 on the machine: profile prod has no MFA device. *)
Lemma C7_no_MFA_witness :
  let p := provider "prod" 0 in
  let w := machine None sts_ok token_closed in
  MFASerial prof_prod = None
  /\ asked w (retrieve p prof_prod w)
     = [EvAssumeRole "dev"
          (mkInput (Some 900%Z) (Some role_X) (Some "1800000000000000000")
                   None None None)]
  /\ (EvGetToken ∉ asked w (retrieve p prof_prod w))
  /\ asked w (Retrieve p w)
     = [EvAssumeRole "dev"
          (mkInput (Some 900%Z) (Some role_X) (Some "1800000000000000000")
                   None None None)].
Proof.
  intros p w.
  assert (H1 : MFASerial prof_prod = None) by reflexivity.
  split; [exact H1|].
  destruct (C7_no_MFA_no_token p prof_prod w H1) as (Hasked & _ & _ & Hno).
  split; [exact Hasked|]. split; [exact Hno|].
  vm_compute. reflexivity.
Defined.

(** X19 on the machine: no cache file yet, STS grants the role until
    08:15:00Z, given in a zone one hour east of UTC. *)
Lemma X19_successful_refresh_witness :
  let p := provider "prod" 0 in
  let w := machine None sts_ok token_ok in
  let p1 := with_Cache (Some (emptied (mkFileCache None cache_path))) p in
  let p3 := with_default_GetToken p1 in
  let t := mkTime (t0 + seconds 900) UTC in
  let w3 := log (EvAssumeRole "dev" (base_request p3 prof_prod w)) (tick w) in
  (loadProfile p w = Done (Some prof_prod, None) w
   /\ loadCachedCreds p w = Done (creds_zero, p1) w
   /\ usable creds_zero prof_prod w = false
   /\ retrieve p3 prof_prod (after_test creds_zero prof_prod w)
      = Done (key_2, t, None, p3) w3)
  /\ loc t = UTC
  /\ (exists c3,
         p_Cache p3 = Some c3
         /\ match json_Marshal_creds (mkCreds key_2 t prof_prod) with
            | (cachedJSON, None) =>
                Retrieve p w
                = (c4 <- Cache_Set "credentials" cachedJSON c3 ;;
                   ret (key_2, None, with_Cache (Some c4) p3))%go w3
            | (_, Some _) => Retrieve p w = Done (key_2, None, p3) w3
            end)
  /\ returned (Retrieve p w) = Some (key_2, None)
  /\ cache_file_after (Retrieve p w) = Some (file_of (mkCreds key_2 t prof_prod)).
Proof.
  intros p w p1 p3 t w3.
  assert (H1 : loadProfile p w = Done (Some prof_prod, None) w) by reflexivity.
  assert (H2 : loadCachedCreds p w = Done (creds_zero, p1) w) by reflexivity.
  assert (H3 : usable creds_zero prof_prod w = false) by reflexivity.
  assert (H4 : retrieve p3 prof_prod (after_test creds_zero prof_prod w)
               = Done (key_2, t, None, p3) w3) by reflexivity.
  split; [auto|].
  destruct (X19_a_successful_refresh_goes_to_the_cache
              p w prof_prod creds_zero p1 w key_2 t p3 w3 H1 H2 H3 H4)
    as (_ & Hloc & Hstore).
  split; [exact Hloc|]. split; [exact Hstore|].
  split; vm_compute; reflexivity.
Defined.


(** X20 on the machine: no cache file, and STS denies the request. *)
Lemma X20_failed_refresh_witness :
  let p := provider "prod" 0 in
  let w := machine None sts_denied token_ok in
  let p1 := with_Cache (Some (emptied (mkFileCache None cache_path))) p in
  let p3 := with_default_GetToken p1 in
  let t := mkTime (t0 + seconds 1) Local in
  let e := errors_New "AccessDenied: not authorized to perform sts:AssumeRole" in
  let w3 := tick (log (EvAssumeRole "dev" (base_request p3 prof_prod w)) (tick w)) in
  (loadProfile p w = Done (Some prof_prod, None) w
   /\ loadCachedCreds p w = Done (creds_zero, p1) w
   /\ usable creds_zero prof_prod w = false
   /\ retrieve p3 prof_prod (after_test creds_zero prof_prod w)
      = Done (Value_tag_only, t, Some e, p3) w3)
  /\ (exists w0, time_Now w0 = Done t w3)
  /\ (exists c3,
         p_Cache p3 = Some c3
         /\ match json_Marshal_creds (mkCreds Value_tag_only t prof_prod) with
            | (cachedJSON, None) =>
                Retrieve p w
                = (c4 <- Cache_Set "credentials" cachedJSON c3 ;;
                   ret (Value_tag_only, None, with_Cache (Some c4) p3))%go w3
            | (_, Some _) => Retrieve p w = Done (Value_tag_only, None, p3) w3
            end)
  /\ returned (Retrieve p w) = Some (Value_tag_only, None)
  /\ cache_file_after (Retrieve p w)
     = Some (file_of (mkCreds Value_tag_only t prof_prod)).
Proof.
  intros p w p1 p3 t e w3.
  assert (H1 : loadProfile p w = Done (Some prof_prod, None) w) by reflexivity.
  assert (H2 : loadCachedCreds p w = Done (creds_zero, p1) w) by reflexivity.
  assert (H3 : usable creds_zero prof_prod w = false) by reflexivity.
  assert (H4 : retrieve p3 prof_prod (after_test creds_zero prof_prod w)
               = Done (Value_tag_only, t, Some e, p3) w3) by reflexivity.
  split; [auto|].
  destruct (X20_a_failed_refresh_goes_to_the_cache
              p w prof_prod creds_zero p1 w Value_tag_only t e p3 w3 H1 H2 H3 H4)
    as (_ & Hnow & Hstore).
  split; [exact Hnow|]. split; [exact Hstore|].
  split; vm_compute; reflexivity.
Defined.

(** ** More general statements at work on the machine *)

Import MoreExamples.

(** X1 on the machine: the config file has no profile of that name. *)
Lemma X1_load_error_witness :
  let p := provider "missing" 0 in
  let w := machine None sts_ok token_ok in
  let e := ini_no_section "profile missing" in
  loadProfile p w = Done (None, Some e) w
  /\ Retrieve p w = Done (Value_tag_only, Some e, p) w.
Proof.
  intros p w e.
  assert (H1 : loadProfile p w = Done (None, Some e) w) by reflexivity.
  split; [exact H1|].
  exact (proj2 (X1_Retrieve_error_is_the_error_of_loadProfile p w e) None H1).
Defined.

(** X2 on the machine: profile secure, whose section has an mfa_serial key. *)
Lemma X2_loadProfile_witness :
  let p := provider "secure" 0 in
  let w := machine None sts_ok token_ok in
  loadProfile p w = Done (Some prof_mfa, None) w
  /\ exists home config section role source,
      homedir_Dir w = (home, None)
      /\ ini_Load w (home +:+ "/.aws/config") = (Some config, None)
      /\ config !! ("profile " +:+ ProfileName p) = Some section
      /\ section !! "role_arn" = Some role
      /\ section !! "source_profile" = Some source
      /\ prof_mfa = {| Name := ProfileName p;
                       RoleARN := role;
                       SourceProfileName := source;
                       RoleSessionName := section !! "role_session_name";
                       MFASerial := section !! "mfa_serial";
                       ExternalID := section !! "external_id" |}.
Proof.
  intros p w.
  assert (H1 : loadProfile p w = Done (Some prof_mfa, None) w) by reflexivity.
  split; [exact H1|].
  exact (proj1 (X2_loadProfile_returns_a_profile_iff p w prof_mfa) H1).
Defined.

(** X3 on the machine: profile secure, and the prompt answers 123456. *)
Lemma X3_MFA_token_witness :
  let p := with_default_GetToken (provider "secure" 0) in
  let w := machine None sts_ok token_ok in
  (MFASerial prof_mfa = Some mfa_Y
   /\ GetToken p = Some PromptTokenSource
   /\ PromptTokenSource (session_world prof_mfa w) = ("123456", None))
  /\ asked w (retrieve p prof_mfa w)
     = [EvGetToken;
        EvAssumeRole "dev"
          (mkInput (Some 900%Z) (Some role_X) (Some "1800000000000000000")
                   None (Some mfa_Y) (Some "123456"))].
Proof.
  intros p w.
  assert (H1 : MFASerial prof_mfa = Some mfa_Y) by reflexivity.
  assert (H2 : GetToken p = Some PromptTokenSource) by reflexivity.
  assert (H3 : PromptTokenSource (session_world prof_mfa w) = ("123456", None))
    by reflexivity.
  split; [auto|].
  exact (proj1 (X3_MFA_token_is_asked_once_and_passed_on
                  p prof_mfa w mfa_Y PromptTokenSource "123456" H1 H2 H3)).
Defined.

(** X4 on the machine: profile secure, and the terminal is closed. *)
Lemma X4_token_error_witness :
  let p := with_default_GetToken (provider "secure" 0) in
  let w := machine None sts_ok token_closed in
  (MFASerial prof_mfa = Some mfa_Y
   /\ GetToken p = Some PromptTokenSource
   /\ PromptTokenSource (session_world prof_mfa w) = ("", Some (errors_New "EOF")))
  /\ asked w (retrieve p prof_mfa w) = [EvGetToken].
Proof.
  intros p w.
  assert (H1 : MFASerial prof_mfa = Some mfa_Y) by reflexivity.
  assert (H2 : GetToken p = Some PromptTokenSource) by reflexivity.
  assert (H3 : PromptTokenSource (session_world prof_mfa w)
               = ("", Some (errors_New "EOF"))) by reflexivity.
  split; [auto|].
  exact (proj2 (X4_retrieve_stops_at_a_token_error
                  p prof_mfa w mfa_Y PromptTokenSource "" (errors_New "EOF")
                  H1 H2 H3)).
Defined.

(** X5 on the machine: a provider whose duration was left at zero. *)
Lemma X5_Duration_default_witness :
  let p := with_Duration 0 (with_default_GetToken (provider "prod" 0)) in
  let w := machine None sts_ok token_ok in
  let p' := with_Duration (15 * time_Minute) p in
  let w' := world_of (retrieve p prof_prod w) in
  retrieve p prof_prod w
  = Done (key_2, mkTime (t0 + seconds 900) UTC, None, p') w'
  /\ Duration p' = DefaultDuration w
  /\ files w' = files w.
Proof.
  intros p w p' w'.
  assert (H1 : retrieve p prof_prod w
               = Done (key_2, mkTime (t0 + seconds 900) UTC, None, p') w')
    by reflexivity.
  split; [exact H1|].
  destruct (X5_retrieve_only_defaults_the_Duration _ _ _ _ _ _ _ _ H1)
    as (Hp & _ & Hf & _).
  split; [reflexivity|exact Hf].
Defined.

(** X6 on the machine: the request made for profile prod. *)
Lemma X6_request_witness :
  let p := with_default_GetToken (provider "prod" 0) in
  let w := machine None sts_ok token_ok in
  let params := mkInput (Some 900%Z) (Some role_X) (Some "1800000000000000000")
                        None None None in
  EvAssumeRole "dev" params ∈ asked w (retrieve p prof_prod w)
  /\ RoleArn params = Some (RoleARN prof_prod)
  /\ SerialNumber params = MFASerial prof_prod.
Proof.
  intros p w params.
  assert (H1 : EvAssumeRole "dev" params ∈ asked w (retrieve p prof_prod w)).
  { change (EvAssumeRole "dev" params ∈ [EvAssumeRole "dev" params]). left. }
  split; [exact H1|].
  destruct (X6_request_is_built_from_the_profile p prof_prod w "dev" params H1)
    as (_ & Hrole & _ & Hserial & _).
  split; [exact Hrole|exact Hserial].
Defined.

(** X7 on the machine: a call served from the cache, for a provider set up
    with a window of ten seconds. *)
Lemma X7_configuration_witness :
  let p := provider "prod" (seconds 10) in
  let w := machine (Some (file_of rec_hour)) sts_ok token_ok in
  let p' := with_Cache (Some (mkFileCache (Some (cache_of rec_hour)) cache_path)) p in
  Retrieve p w = Done (key_1, None, p') (tick w)
  /\ ProfileName p' = "prod"
  /\ ExpiryWindow p' = seconds 10
  /\ Expiry p' = time_zero.
Proof.
  intros p w p'.
  assert (H1 : Retrieve p w = Done (key_1, None, p') (tick w)) by reflexivity.
  split; [exact H1|].
  destruct (X7_Retrieve_keeps_the_configuration _ _ _ _ _ _ H1)
    as (Hname & Hwindow & Hexpiry & _).
  split; [exact Hname|]. split; [exact Hwindow|exact Hexpiry].
Defined.

(** X9 on the machine: there is no cache file. *)
Lemma X9_zero_record_witness :
  let p := provider "prod" 0 in
  let w := machine None sts_ok token_ok in
  let p1 := with_Cache (Some (emptied fresh_cache)) p in
  (loadProfile p w = Done (Some prof_prod, None) w
   /\ loadCachedCreds p w = Done (creds_zero, p1) w
   /\ (wall_ns time_zero < now_of w)%Z)
  /\ Retrieve p w = live_refresh p1 prof_prod (after_test creds_zero prof_prod w).
Proof.
  intros p w p1.
  assert (H1 : loadProfile p w = Done (Some prof_prod, None) w) by reflexivity.
  assert (H2 : loadCachedCreds p w = Done (creds_zero, p1) w) by reflexivity.
  assert (H3 : (wall_ns time_zero < now_of w)%Z) by reflexivity.
  split; [auto|].
  exact (proj1 (X9_zero_record_leads_to_a_refresh p w prof_prod p1 w H1 H2 H3)).
Defined.

(** X10 on the machine: profile secure names an MFA device, the prompt
    gives a token, and STS reports no error and sends no credentials. *)
Lemma X10_incomplete_answer_witness :
  let p := with_default_GetToken (provider "secure" 0) in
  let w := machine None sts_incomplete token_ok in
  let params := mfa_request p prof_mfa w mfa_Y "123456" in
  (EvAssumeRole "dev" params ∈ asked w (retrieve p prof_mfa w)
   /\ sts_AssumeRole w "dev" params = (Some (mkOutput None), None)
   /\ (forall ak sk st exp, Some (mkOutput None) <> Some (sts_success ak sk st exp)))
  /\ exists w0,
      retrieve p prof_mfa w = Panicked nil_deref (log (EvAssumeRole "dev" params) w0)
      /\ events w0 = events w ++ [EvGetToken].
Proof.
  intros p w params.
  assert (H1 : EvAssumeRole "dev" params ∈ asked w (retrieve p prof_mfa w)).
  { assert (Ha : asked w (retrieve p prof_mfa w) = [EvGetToken; EvAssumeRole "dev" params])
      by (vm_compute; reflexivity).
    rewrite Ha. apply elem_of_cons. right. apply elem_of_cons. left. reflexivity. }
  assert (H2 : sts_AssumeRole w "dev" params = (Some (mkOutput None), None))
    by reflexivity.
  assert (H3 : forall ak sk st exp,
             Some (mkOutput None) <> Some (sts_success ak sk st exp))
    by (intros ak sk st exp; discriminate).
  split; [auto|].
  exact (X10_incomplete_answer_panics p prof_mfa w "dev" params
           (Some (mkOutput None)) H1 H2 H3).
Defined.

(** X11 on the machine: a fresh cache, no cache file yet, and the text of
    record [rec_hour] stored under the key credentials. *)
Lemma X11_Set_then_Get_witness :
  let w := machine None sts_ok token_ok in
  let js := (json_Marshal_creds rec_hour).1 in
  let f' := mkFileCache (Some (cache_of rec_hour)) cache_path in
  let w' := world_of (FileCache_Set "credentials" js fresh_cache w) in
  FileCache_Set "credentials" js fresh_cache w = Done f' w'
  /\ FileCache_Get "credentials" f' w' = Done (js, true, f') w'.
Proof.
  intros w js f' w'.
  assert (H1 : FileCache_Set "credentials" js fresh_cache w = Done f' w')
    by reflexivity.
  split; [exact H1|].
  exact (X11_Get_finds_what_Set_stored _ _ _ _ _ _ H1 w').
Defined.

(** X12 on the machine: a key the cache does not hold. *)
Lemma X12_other_keys_witness :
  let w := machine None sts_ok token_ok in
  let js := (json_Marshal_creds rec_hour).1 in
  let f' := mkFileCache (Some (cache_of rec_hour)) cache_path in
  let w' := world_of (FileCache_Set "credentials" js fresh_cache w) in
  (FileCache_Set "credentials" js fresh_cache w = Done f' w'
   /\ "session" <> "credentials")
  /\ answer (FileCache_Get "session" f' w')
     = answer (FileCache_Get "session" fresh_cache w).
Proof.
  intros w js f' w'.
  assert (H1 : FileCache_Set "credentials" js fresh_cache w = Done f' w')
    by reflexivity.
  assert (H2 : "session" <> "credentials") by discriminate.
  split; [auto|].
  exact (X12_Set_leaves_the_other_keys _ _ _ _ _ _ "session" H1 H2 w').
Defined.


(** X14 on the machine: a second cache opened on the file just written. *)
Lemma X14_fresh_cache_witness :
  let w := machine None sts_ok token_ok in
  let js := (json_Marshal_creds rec_hour).1 in
  let f' := mkFileCache (Some (cache_of rec_hour)) cache_path in
  let w' := world_of (FileCache_Set "credentials" js fresh_cache w) in
  (FileCache_Set "credentials" js fresh_cache w = Done f' w'
   /\ os_OpenFile_trunc (filename fresh_cache) w <> None
   /\ json_Decode_map (json_Encode_map (data f')) (Some ∅) = (data f', None))
  /\ FileCache_Get "credentials" (mkFileCache None (filename fresh_cache)) w'
     = Done (js, true, f') w'.
Proof.
  intros w js f' w'.
  assert (H1 : FileCache_Set "credentials" js fresh_cache w = Done f' w')
    by reflexivity.
  assert (H2 : os_OpenFile_trunc (filename fresh_cache) w <> None) by discriminate.
  assert (H3 : json_Decode_map (json_Encode_map (data f')) (Some ∅) = (data f', None))
    by (vm_compute; reflexivity).
  split; [auto|].
  exact (X14_a_fresh_cache_reads_back_the_file _ _ _ _ _ _ None H1 H2 H3).
Defined.

(** X15 on the machine: the cache file holds the JSON value null. *)
Lemma X15_nil_map_witness :
  let w := machine (Some ("null" +:+ newline)) sts_ok token_ok in
  (data fresh_cache = None
   /\ os_Open (filename fresh_cache) w = Some ("null" +:+ newline)
   /\ (json_Decode_map ("null" +:+ newline) (Some ∅)).1 = None)
  /\ exists msg w', FileCache_Set "credentials" "text" fresh_cache w = Panicked msg w'.
Proof.
  intros w.
  assert (H1 : data fresh_cache = None) by reflexivity.
  assert (H2 : os_Open (filename fresh_cache) w = Some ("null" +:+ newline))
    by reflexivity.
  assert (H3 : (json_Decode_map ("null" +:+ newline) (Some ∅)).1 = None)
    by reflexivity.
  split; [auto|].
  apply (proj2 (X15_Set_panics_only_on_a_nil_map fresh_cache "credentials" "text" w)).
  split; [exact H1|]. exists ("null" +:+ newline). auto.
Defined.

(** X17 on the machine: no cache file yet, and STS grants what record
    [rec_hour] holds; the second call is made one clock reading later. *)
Lemma X17_refresh_then_hit_witness :
  let p := provider "prod" 0 in
  let w := machine None sts_hour token_ok in
  let p1 := with_Cache (Some (emptied fresh_cache)) p in
  let p3 := with_default_GetToken p1 in
  let t := mkTime (t0 + seconds 3600) UTC in
  let w3 := log (EvAssumeRole "dev" (base_request p3 prof_prod w)) (tick w) in
  let js := (json_Marshal_creds rec_hour).1 in
  let p4 := with_Cache (Some (mkFileCache (Some (cache_of rec_hour)) cache_path)) p3 in
  let w4 := world_of (Retrieve p w) in
  (loadProfile p w = Done (Some prof_prod, None) w
   /\ loadCachedCreds p w = Done (creds_zero, p1) w
   /\ usable creds_zero prof_prod w = false
   /\ retrieve p3 prof_prod (after_test creds_zero prof_prod w)
      = Done (key_1, t, None, p3) w3
   /\ Retrieve p w = Done (key_1, None, p4) w4
   /\ json_Marshal_creds (mkCreds key_1 t prof_prod) = (js, None)
   /\ json_Unmarshal_creds js creds_zero = (rec_hour, None)
   /\ (now_of w4 <= wall_ns t)%Z)
  /\ Retrieve p4 w4 = Done (key_1, None, p4) (tick w4)
  /\ asked w4 (Retrieve p4 w4) = [].
Proof.
  intros p w p1 p3 t w3 js p4 w4.
  assert (H1 : loadProfile p w = Done (Some prof_prod, None) w) by reflexivity.
  assert (H2 : loadCachedCreds p w = Done (creds_zero, p1) w) by reflexivity.
  assert (H3 : usable creds_zero prof_prod w = false) by reflexivity.
  assert (H4 : retrieve p3 prof_prod (after_test creds_zero prof_prod w)
               = Done (key_1, t, None, p3) w3) by reflexivity.
  assert (H5 : Retrieve p w = Done (key_1, None, p4) w4) by reflexivity.
  assert (H6 : json_Marshal_creds (mkCreds key_1 t prof_prod) = (js, None))
    by reflexivity.
  assert (H7 : json_Unmarshal_creds js creds_zero = (rec_hour, None))
    by (vm_compute; reflexivity).
  assert (H8 : (now_of w4 <= wall_ns t)%Z) by (vm_compute; discriminate).
  split; [auto 10|].
  destruct (X17_a_refresh_is_served_from_the_cache_next
              p w prof_prod creds_zero p1 w key_1 t p3 w3 js rec_hour None
              key_1 None p4 w4 H1 H2 H3 H4 H5 H6 H7 eq_refl eq_refl eq_refl H8)
    as (_ & _ & Hnext & Hasked).
  split; [exact Hnext|exact Hasked].
Defined.

(** X18 on the machine: a fresh cache and no cache file. *)
Lemma X18_Retrieve_returns_witness :
  let p := provider "prod" 0 in
  let w := machine None sts_ok token_ok in
  (p_Cache p = Some fresh_cache
   /\ loadProfile p w = Done (Some prof_prod, None) w
   /\ (forall source params, sts_well_formed (sts_AssumeRole w source params))
   /\ os_Open (filename fresh_cache) w = None)
  /\ exists v p' w', Retrieve p w = Done (v, None, p') w'.
Proof.
  intros p w.
  assert (H1 : p_Cache p = Some fresh_cache) by reflexivity.
  assert (H2 : loadProfile p w = Done (Some prof_prod, None) w) by reflexivity.
  assert (H3 : forall source params, sts_well_formed (sts_AssumeRole w source params)).
  { intros source params. right. eexists _, _, _, _. reflexivity. }
  assert (H4 : os_Open (filename fresh_cache) w = None) by reflexivity.
  split; [auto|].
  apply (X18_Retrieve_returns_with_a_file_cache p fresh_cache w prof_prod H1 H2 H3).
  intros _ stream Ho. rewrite H4 in Ho. discriminate.
Defined.
